(** * goaqara: the signed API call protocol of the Aqara client

    A shallow embedding of package [aqara] (the client with [New],
    [GetAuthCode], [GetToken], [GetDevices], [apiCall] and [sign]) together
    with the parts of the Go standard library its behaviour rests on:
    [strings.ToLower], [crypto/md5], [encoding/hex], [net/http]'s header map
    and the way [encoding/json] fills a struct.

    Go strings are byte sequences; they are modelled as [string], whose
    characters are the 8-bit bytes.  Go's [int] is 64 bits wide and is a [Z]
    with its range written out where the code depends on it. *)

From Stdlib Require Import ZArith List Ascii String Bool Lia.
From stdpp Require Import gmap strings pretty.
Import ListNotations.

Local Open Scope Z_scope.

(** ** Bytes and strings *)

Definition byte_of (c : ascii) : Z := Z.of_N (N_of_ascii c).
Definition ascii_of (b : Z) : ascii := ascii_of_N (Z.to_N (b mod 256)).

Fixpoint bytes_of (s : string) : list Z :=
  match s with
  | EmptyString => []
  | String c s' => byte_of c :: bytes_of s'
  end.

Fixpoint string_of (bs : list Z) : string :=
  match bs with
  | [] => EmptyString
  | b :: bs' => String (ascii_of b) (string_of bs')
  end.

(** [len(s)] *)
Definition len (s : string) : nat := String.length s.

(** [s[n:]] for [n <= len(s)] *)
Fixpoint drop_bytes (n : nat) (s : string) : string :=
  match n, s with
  | O, _ => s
  | S n', String _ s' => drop_bytes n' s'
  | S _, EmptyString => EmptyString
  end.

Fixpoint string_map (f : ascii -> ascii) (s : string) : string :=
  match s with
  | EmptyString => EmptyString
  | String c s' => String (f c) (string_map f s')
  end.

Fixpoint string_forallb (p : ascii -> bool) (s : string) : bool :=
  match s with
  | EmptyString => true
  | String c s' => p c && string_forallb p s'
  end.

Fixpoint string_existsb (p : ascii -> bool) (s : string) : bool :=
  match s with
  | EmptyString => false
  | String c s' => p c || string_existsb p s'
  end.

(** ** Package unicode/utf8 *)

Module utf8.

Definition RuneError : Z := 0xFFFD.
Definition RuneSelf : Z := 0x80.
Definition MaxRune : Z := 0x10FFFF.

(** The table [first] of the library, read as: the number of bytes the
    sequence started by [b] has, and the range its second byte must lie
    in.  [None] for a byte that starts no sequence of two or more bytes
    (an ASCII byte or an invalid one). *)
Definition first (b : Z) : option (nat * Z * Z) :=
  if b <? 0xC2 then None
  else if b <=? 0xDF then Some (2%nat, 0x80, 0xBF)
  else if b =? 0xE0 then Some (3%nat, 0xA0, 0xBF)
  else if b <=? 0xEC then Some (3%nat, 0x80, 0xBF)
  else if b =? 0xED then Some (3%nat, 0x80, 0x9F)
  else if b <=? 0xEF then Some (3%nat, 0x80, 0xBF)
  else if b =? 0xF0 then Some (4%nat, 0x90, 0xBF)
  else if b <=? 0xF3 then Some (4%nat, 0x80, 0xBF)
  else if b =? 0xF4 then Some (4%nat, 0x80, 0x8F)
  else None.

Definition continuation (b : Z) : bool := (0x80 <=? b) && (b <=? 0xBF).

(** [DecodeRuneInString]: the first rune of [s] and its width in bytes.
    An empty string gives [(RuneError, 0)], an invalid encoding
    [(RuneError, 1)]. *)
Definition DecodeRuneInString (s : string) : Z * nat :=
  match s with
  | EmptyString => (RuneError, 0%nat)
  | String c0 s1 =>
    let s0 := byte_of c0 in
    if s0 <? RuneSelf then (s0, 1%nat)
    else
      match first s0 with
      | None => (RuneError, 1%nat)
      | Some (sz, lo, hi) =>
        match s1 with
        | EmptyString => (RuneError, 1%nat)
        | String c1 s2 =>
          let b1 := byte_of c1 in
          if (b1 <? lo) || (hi <? b1) then (RuneError, 1%nat)
          else if (sz <=? 2)%nat then
            (Z.lor (Z.shiftl (Z.land s0 0x1F) 6) (Z.land b1 0x3F), 2%nat)
          else
            match s2 with
            | EmptyString => (RuneError, 1%nat)
            | String c2 s3 =>
              let b2 := byte_of c2 in
              if negb (continuation b2) then (RuneError, 1%nat)
              else if (sz <=? 3)%nat then
                (Z.lor (Z.lor (Z.shiftl (Z.land s0 0x0F) 12)
                              (Z.shiftl (Z.land b1 0x3F) 6))
                       (Z.land b2 0x3F), 3%nat)
              else
                match s3 with
                | EmptyString => (RuneError, 1%nat)
                | String c3 _ =>
                  let b3 := byte_of c3 in
                  if negb (continuation b3) then (RuneError, 1%nat)
                  else
                    (Z.lor (Z.lor (Z.lor (Z.shiftl (Z.land s0 0x07) 18)
                                         (Z.shiftl (Z.land b1 0x3F) 12))
                                  (Z.shiftl (Z.land b2 0x3F) 6))
                           (Z.land b3 0x3F), 4%nat)
                end
            end
        end
      end
  end.

(** [AppendRune] on an empty buffer: the UTF-8 encoding of [r]; a
    surrogate or a value beyond [MaxRune] is written as [RuneError]. *)
Definition encode3 (r : Z) : list Z :=
  [Z.lor 0xE0 (Z.shiftr r 12);
   Z.lor 0x80 (Z.land (Z.shiftr r 6) 0x3F);
   Z.lor 0x80 (Z.land r 0x3F)].

Definition EncodeRune (r : Z) : string :=
  string_of
    (if r <=? 0x7F then [r]
     else if r <=? 0x7FF then
       [Z.lor 0xC0 (Z.shiftr r 6); Z.lor 0x80 (Z.land r 0x3F)]
     else if (MaxRune <? r) || ((0xD800 <=? r) && (r <=? 0xDFFF)) then
       encode3 RuneError
     else if r <=? 0xFFFF then encode3 r
     else
       [Z.lor 0xF0 (Z.shiftr r 18);
        Z.lor 0x80 (Z.land (Z.shiftr r 12) 0x3F);
        Z.lor 0x80 (Z.land (Z.shiftr r 6) 0x3F);
        Z.lor 0x80 (Z.land r 0x3F)]).

End utf8.

(** ** Package strings *)

Module strings.

Definition isUpperByte (c : ascii) : bool :=
  (65 <=? byte_of c) && (byte_of c <=? 90).

(** [c += 'a' - 'A'] for an upper-case ASCII letter. *)
Definition lowerByte (c : ascii) : ascii :=
  if isUpperByte c then ascii_of (byte_of c + 32) else c.

Definition isASCII (s : string) : bool :=
  string_forallb (fun c => byte_of c <? utf8.RuneSelf) s.

Definition hasUpper (s : string) : bool := string_existsb isUpperByte s.

(** [Map(mapping, s)]: the runes of [s], as a [range] loop reads them
    (an invalid byte is the rune [RuneError]), each replaced by its image
    and written back in UTF-8; a negative image drops the rune. *)
Fixpoint Map_loop (fuel : nat) (mapping : Z -> Z) (s : string) : string :=
  match fuel with
  | O => EmptyString
  | S fuel' =>
    match s with
    | EmptyString => EmptyString
    | String _ _ =>
      let '(c, width) := utf8.DecodeRuneInString s in
      let r := mapping c in
      (if 0 <=? r then utf8.EncodeRune r else EmptyString)
        +:+ Map_loop fuel' mapping (drop_bytes width s)
    end
  end.

Definition Map (mapping : Z -> Z) (s : string) : string :=
  Map_loop (len s) mapping s.

Section ToLower.
(** [unicode.To(unicode.LowerCase, r)] for a rune beyond ASCII: the
    lookup in the table [unicode.CaseRanges], which belongs to the Go
    release and not to this repository. *)
Variable caseRangesLower : Z -> Z.

(** [unicode.ToLower] *)
Definition unicode_ToLower (r : Z) : Z :=
  if r <=? 0x7F then
    (if (65 <=? r) && (r <=? 90) then r + 32 else r)
  else caseRangesLower r.

(** [strings.ToLower]: a string of ASCII bytes is lower-cased byte by
    byte (and returned as it is when it has no upper-case letter); any
    other string is mapped rune by rune with [unicode.ToLower]. *)
Definition ToLower (s : string) : string :=
  if isASCII s then
    (if hasUpper s then string_map lowerByte s else s)
  else Map unicode_ToLower s.
End ToLower.

End strings.

(** ** Package crypto/md5 *)

Module md5.

Definition BlockSize : nat := 64.
Definition Size : nat := 16.

(** Arithmetic on [uint32]. *)
Definition u32 (x : Z) : Z := x mod 2 ^ 32.
Definition add32 (x y : Z) : Z := u32 (x + y).
Definition not32 (x : Z) : Z := Z.lxor x 0xFFFFFFFF.

(** [bits.RotateLeft32] *)
Definition RotateLeft32 (x : Z) (k : Z) : Z :=
  u32 (Z.lor (Z.shiftl x k) (Z.shiftr x (32 - k))).

(** The additive constant and the rotation of each of the 64 steps of
    [blockGeneric]. *)
Definition consts : list Z :=
  [0xd76aa478; 0xe8c7b756; 0x242070db; 0xc1bdceee; 0xf57c0faf; 0x4787c62a; 0xa8304613; 0xfd469501;
   0x698098d8; 0x8b44f7af; 0xffff5bb1; 0x895cd7be; 0x6b901122; 0xfd987193; 0xa679438e; 0x49b40821;
   0xf61e2562; 0xc040b340; 0x265e5a51; 0xe9b6c7aa; 0xd62f105d; 0x02441453; 0xd8a1e681; 0xe7d3fbc8;
   0x21e1cde6; 0xc33707d6; 0xf4d50d87; 0x455a14ed; 0xa9e3e905; 0xfcefa3f8; 0x676f02d9; 0x8d2a4c8a;
   0xfffa3942; 0x8771f681; 0x6d9d6122; 0xfde5380c; 0xa4beea44; 0x4bdecfa9; 0xf6bb4b60; 0xbebfbc70;
   0x289b7ec6; 0xeaa127fa; 0xd4ef3085; 0x04881d05; 0xd9d4d039; 0xe6db99e5; 0x1fa27cf8; 0xc4ac5665;
   0xf4292244; 0x432aff97; 0xab9423a7; 0xfc93a039; 0x655b59c3; 0x8f0ccc92; 0xffeff47d; 0x85845dd1;
   0x6fa87e4f; 0xfe2ce6e0; 0xa3014314; 0x4e0811a1; 0xf7537e82; 0xbd3af235; 0x2ad7d2bb; 0xeb86d391].

Definition shifts : list Z :=
  [7; 12; 17; 22; 7; 12; 17; 22; 7; 12; 17; 22; 7; 12; 17; 22;
   5; 9; 14; 20; 5; 9; 14; 20; 5; 9; 14; 20; 5; 9; 14; 20;
   4; 11; 16; 23; 4; 11; 16; 23; 4; 11; 16; 23; 4; 11; 16; 23;
   6; 10; 15; 21; 6; 10; 15; 21; 6; 10; 15; 21; 6; 10; 15; 21].

(** The chaining value [dig.s]. *)
Definition state : Type := Z * Z * Z * Z.

Definition init : state := (0x67452301, 0xEFCDAB89, 0x98BADCFE, 0x10325476).

(** [byteorder.LeUint32] *)
Definition LeUint32 (q : list Z) : Z :=
  match q with
  | b0 :: b1 :: b2 :: b3 :: _ =>
    Z.lor (Z.lor (Z.lor b0 (Z.shiftl b1 8)) (Z.shiftl b2 16)) (Z.shiftl b3 24)
  | _ => 0
  end.

(** The sixteen words [x0 .. xf] of a block. *)
Fixpoint words (n : nat) (q : list Z) : list Z :=
  match n with
  | O => []
  | S n' => LeUint32 q :: words n' (skipn 4 q)
  end.

(** The mixing function of step [i] and the index of the word it adds. *)
Definition mix (i : nat) (b c d : Z) : Z :=
  if (i <? 16)%nat then Z.lxor (Z.land (Z.lxor c d) b) d
  else if (i <? 32)%nat then Z.lxor (Z.land (Z.lxor b c) d) c
  else if (i <? 48)%nat then Z.lxor (Z.lxor b c) d
  else Z.lxor c (Z.lor b (not32 d)).

Definition word_index (i : nat) : nat :=
  if (i <? 16)%nat then i
  else if (i <? 32)%nat then ((5 * i + 1) mod 16)%nat
  else if (i <? 48)%nat then ((3 * i + 5) mod 16)%nat
  else ((7 * i) mod 16)%nat.

(** One step: [a = b + RotateLeft32(mix + a + x + const, shift)], after
    which the four registers change roles. *)
Definition step (x : list Z) (st : state) (i : nat) : state :=
  let '(a, b, c, d) := st in
  let sum :=
    add32 (add32 (add32 (mix i b c d) a) (nth (word_index i) x 0))
          (nth i consts 0) in
  (d, add32 b (RotateLeft32 sum (nth i shifts 0)), b, c).

(** The body of the loop of [blockGeneric] for one block [q]. *)
Definition block1 (st : state) (q : list Z) : state :=
  let '(aa, bb, cc, dd) := st in
  let '(a, b, c, d) := fold_left (step (words 16 q)) (seq 0 64) st in
  (add32 a aa, add32 b bb, add32 c cc, add32 d dd).

(** [blockGeneric]: every whole block of [p], in turn. *)
Fixpoint blocks (n : nat) (st : state) (p : list Z) : state :=
  match n with
  | O => st
  | S n' => blocks n' (block1 st (firstn BlockSize p)) (skipn BlockSize p)
  end.

(** [binary.LittleEndian.PutUint64] and [PutUint32] *)
Fixpoint le_bytes (n : nat) (v : Z) : list Z :=
  match n with
  | O => []
  | S n' => v mod 256 :: le_bytes n' (Z.shiftr v 8)
  end.

(** The padding [checkSum] writes after a message of [n] bytes: the end
    marker, [(55 - n) % 64] zero bytes, and the length in bits as a
    [uint64]. *)
Definition padding (n : Z) : list Z :=
  0x80 :: repeat 0 (Z.to_nat ((55 - n) mod 64))
       ++ le_bytes 8 ((n * 8) mod 2 ^ 64).

(** [md5.Sum] *)
Definition Sum (data : list Z) : list Z :=
  let p := data ++ padding (Z.of_nat (length data)) in
  let '(a, b, c, d) := blocks (length p / BlockSize) init p in
  le_bytes 4 a ++ le_bytes 4 b ++ le_bytes 4 c ++ le_bytes 4 d.

End md5.

(** ** Package encoding/hex *)

Module hex.

Definition hextable : string := "0123456789abcdef".

Definition digit (v : Z) : ascii :=
  match String.get (Z.to_nat v) hextable with
  | Some c => c
  | None => "0"%char
  end.

(** [hex.EncodeToString] *)
Fixpoint EncodeToString (src : list Z) : string :=
  match src with
  | [] => EmptyString
  | v :: src' =>
    String (digit (Z.shiftr v 4)) (String (digit (Z.land v 0x0F)) (EncodeToString src'))
  end.

End hex.

(** ** Package encoding/json

    A JSON text is modelled by its syntax tree; a byte sequence that is no
    JSON text has no tree.  A number keeps the distinction the decoder
    makes: a literal in integer syntax, or one with a fraction or an
    exponent. *)

Module json.

#[local] Set Warnings "-register-all".

Inductive Value : Type :=
| Null
| Bool (b : bool)
| Int (n : Z)
| Frac (literal : string)
| Str (s : string)
| Arr (elements : list Value)
| Obj (members : list (string * Value)).

Inductive Error : Type :=
| SyntaxError
| UnmarshalTypeError (field : string) (value : Value).

(** [json.RawMessage]: the undecoded value, [None] for a nil slice. *)
Definition RawMessage : Type := option Value.

(** The decoder takes an object key for a struct field when the two are
    equal after folding: ASCII letters to upper case, and the two runes
    beyond ASCII that fold to an ASCII letter (U+017F to S, U+212A to K).
    Any other byte beyond ASCII stays beyond ASCII, and so never meets the
    name of a field of this package. *)
Definition upperByte (c : ascii) : ascii :=
  if (97 <=? byte_of c) && (byte_of c <=? 122) then ascii_of (byte_of c - 32) else c.

Fixpoint foldName (s : string) : string :=
  match s with
  | EmptyString => EmptyString
  | String c s1 =>
    if byte_of c <? 0x80 then String (upperByte c) (foldName s1)
    else
      match s1 with
      | EmptyString => String c EmptyString
      | String c1 s2 =>
        if (byte_of c =? 0xC5) && (byte_of c1 =? 0xBF) then String "S" (foldName s2)
        else
          match s2 with
          | EmptyString => String c (foldName s1)
          | String c2 s3 =>
            if (byte_of c =? 0xE2) && (byte_of c1 =? 0x84) && (byte_of c2 =? 0xAA)
            then String "K" (foldName s3)
            else String c (foldName s1)
          end
      end
  end.

Definition equalFold (name key : string) : bool :=
  String.eqb (foldName name) (foldName key).

Section Struct.
Context {T : Type}.

(** How one field of a struct takes a JSON value: the struct with the
    field set (or left alone), and the error the decoder saves. *)
Definition field : Type := string * (Value -> T -> T * option Error).

Definition fits_int (n : Z) : bool := (- 2 ^ 63 <=? n) && (n <? 2 ^ 63).

(** A field of type [int]. *)
Definition intField (name : string) (set : Z -> T -> T) : field :=
  (name, fun v t =>
     match v with
     | Null => (t, None)
     | Int n => if fits_int n then (set n t, None)
                else (t, Some (UnmarshalTypeError name v))
     | _ => (t, Some (UnmarshalTypeError name v))
     end).

(** A field of type [string]. *)
Definition stringField (name : string) (set : string -> T -> T) : field :=
  (name, fun v t =>
     match v with
     | Null => (t, None)
     | Str s => (set s t, None)
     | _ => (t, Some (UnmarshalTypeError name v))
     end).

(** A field of type [json.RawMessage]: it takes any value, undecoded. *)
Definition rawField (name : string) (set : RawMessage -> T -> T) : field :=
  (name, fun v t => (set (Some v) t, None)).

Fixpoint lookupField (fields : list field) (key : string)
    : option (Value -> T -> T * option Error) :=
  match fields with
  | [] => None
  | (name, dec) :: fields' =>
    if equalFold name key then Some dec else lookupField fields' key
  end.

(** The first error is the one kept. *)
Definition saveError (saved new : option Error) : option Error :=
  match saved with
  | Some _ => saved
  | None => new
  end.

(** The members of an object, in the order of the text; a key that names
    no field is skipped, a type error is saved and decoding goes on. *)
Fixpoint object (fields : list field) (members : list (string * Value))
    (t : T) (saved : option Error) : T * option Error :=
  match members with
  | [] => (t, saved)
  | (key, v) :: members' =>
    match lookupField fields key with
    | None => object fields members' t saved
    | Some dec =>
      let '(t', err) := dec v t in
      object fields members' t' (saveError saved err)
    end
  end.

(** [json.Unmarshal(data, &t)] for a struct [t]. *)
Definition Unmarshal (fields : list field) (data : RawMessage) (t : T)
    : T * option Error :=
  match data with
  | None => (t, Some SyntaxError)
  | Some Null => (t, None)
  | Some (Obj members) => object fields members t None
  | Some v => (t, Some (UnmarshalTypeError "" v))
  end.

End Struct.

End json.

(** ** Package net/http, as far as [apiCall] uses it *)

Module http.

Definition MethodPost : string := "POST".
Definition StatusOK : Z := 200.

(** [http.Header], a [map[string][]string].  [Add] appends to the values
    held under the canonical form of the key; every key this package adds
    is written in its canonical form. *)
Definition Header_Add (key value : string) (h : gmap string (list string))
    : gmap string (list string) :=
  <[key := default [] (h !! key) ++ [value]]> h.

Record Request : Type := mkRequest {
  Method : string;
  URL : string;
  Header : gmap string (list string);
  Body : json.Value
}.

Definition add_header (key value : string) (r : Request) : Request :=
  {| Method := Method r; URL := URL r;
     Header := Header_Add key value (Header r); Body := Body r |}.

(** What [io.ReadAll(response.Body)] gives. *)
Inductive BodyRead : Type :=
| ReadFailed (msg : string)
| ReadAll (body : json.RawMessage).

(** What [client.Do(request)] gives. *)
Inductive RoundTrip : Type :=
| DoFailed (msg : string)
| Response (StatusCode : Z) (body : BodyRead).

End http.

(** ** Package aqara: types *)

Definition nonceLength : nat := 16.

Definition AqaraRegionServer : Type := string.

Definition ServerRegionChina : AqaraRegionServer := "open-cn.aqara.com".
Definition ServerRegionUSA : AqaraRegionServer := "open-usa.aqara.com".
Definition ServerRegionSouthKorea : AqaraRegionServer := "open-kr.aqara.com".
Definition ServerRegionRussia : AqaraRegionServer := "open-ru.aqara.com".
Definition ServerRegionEurope : AqaraRegionServer := "open-ger.aqara.com".
Definition ServerRegionSingapore : AqaraRegionServer := "open-sg.aqara.com".

(** The three local types [Data] that fill [AqaraRequest.Data]. *)
Inductive AqaraData : Type :=
| AuthCodeData (Account : string) (AccountType : Z) (AccessTokenValidity : string)
| TokenData (AuthCode Account : string) (AccountType : Z)
| DevicesData (DeviceIDs : list string) (PositionID : string) (PageNum PageSize : Z).

Record AqaraRequest : Type := mkRequest {
  Intent : string;
  Data : AqaraData
}.

Record AqaraResponse : Type := mkResponse {
  Code : Z;
  RequestID : string;
  Message : string;
  MessageDetail : string;
  Result : json.RawMessage
}.

(** [AqaraResponse{}] *)
Definition zeroResponse : AqaraResponse :=
  {| Code := 0; RequestID := ""; Message := ""; MessageDetail := ""; Result := None |}.

Record AqaraClient : Type := mkClient {
  region : AqaraRegionServer;
  appID : string;
  keyID : string;
  appKey : string;
  account : string;
  accessToken : string;
  refreshToken : string;
  debug : bool
}.

(** The local type [Result] of [GetToken]. *)
Record TokenResult : Type := mkTokenResult {
  ExpiresIn : string;
  OpenID : string;
  AccessToken : string;
  RefreshToken : string
}.

Definition zeroTokenResult : TokenResult :=
  {| ExpiresIn := ""; OpenID := ""; AccessToken := ""; RefreshToken := "" |}.

(** The local types [Device] and [Result] of [GetDevices]. *)
Record Device : Type := mkDevice {
  DID : string;
  ParentDID : string;
  PositionID : string;
  CreateTime : string;
  UpdateTime : string;
  Model : string;
  ModelType : Z;
  State : Z;
  FirmwareVersion : string;
  DeviceName : string;
  TimeZone : string
}.

Record DevicesResult : Type := mkDevicesResult {
  ResultData : list Device;
  TotalCount : Z
}.

(** Go's [error] values met here: one the standard library made (the
    transport, the body reader, the URL parser), one of the JSON decoder,
    and one made by [fmt.Errorf], kept as its format and operands. *)
Inductive Operand : Type :=
| OInt (n : Z)
| OStr (s : string).

Inductive error : Type :=
| LibraryError (msg : string)
| JSONError (e : json.Error)
| Errorf (format : string) (operands : list Operand).

(** A call of [log.Printf] or [fmt.Printf], kept as its format and
    arguments. *)
Inductive Arg : Type :=
| AInt (n : Z)
| AStr (s : string)
| AErr (e : error)
| ABody (body : json.RawMessage).

Record Printf : Type := mkPrintf {
  format : string;
  args : list Arg
}.

(** What one call of [apiCall] draws from outside the program: the values
    the seeded generator returns, the clock, and the server behind
    [client.Do]. *)
Record Env : Type := mkEnv {
  rand : nat -> nat;
  UnixMilli : Z;
  Do : http.Request -> http.RoundTrip
}.

(** ** Package aqara: encoding and decoding of the envelopes *)

Definition marshalData (d : AqaraData) : json.Value :=
  match d with
  | AuthCodeData acc ty validity =>
    json.Obj [("account", json.Str acc); ("accountType", json.Int ty);
              ("accessTokenValidity", json.Str validity)]
  | TokenData code acc ty =>
    json.Obj [("authCode", json.Str code); ("account", json.Str acc);
              ("accountType", json.Int ty)]
  | DevicesData dids pos num size =>
    json.Obj [("dids", json.Arr (map json.Str dids)); ("positionId", json.Str pos);
              ("pageNum", json.Int num); ("pageSize", json.Int size)]
  end.

(** [json.Marshal(aqaraRequest)]; none of the three payloads has a value
    the encoder refuses. *)
Definition json_Marshal (r : AqaraRequest) : error + json.Value :=
  inr (json.Obj [("intent", json.Str (Intent r)); ("data", marshalData (Data r))]).

Definition set_Code (n : Z) (r : AqaraResponse) : AqaraResponse :=
  {| Code := n; RequestID := RequestID r; Message := Message r;
     MessageDetail := MessageDetail r; Result := Result r |}.
Definition set_RequestID (s : string) (r : AqaraResponse) : AqaraResponse :=
  {| Code := Code r; RequestID := s; Message := Message r;
     MessageDetail := MessageDetail r; Result := Result r |}.
Definition set_Message (s : string) (r : AqaraResponse) : AqaraResponse :=
  {| Code := Code r; RequestID := RequestID r; Message := s;
     MessageDetail := MessageDetail r; Result := Result r |}.
Definition set_MessageDetail (s : string) (r : AqaraResponse) : AqaraResponse :=
  {| Code := Code r; RequestID := RequestID r; Message := Message r;
     MessageDetail := s; Result := Result r |}.
Definition set_Result (v : json.RawMessage) (r : AqaraResponse) : AqaraResponse :=
  {| Code := Code r; RequestID := RequestID r; Message := Message r;
     MessageDetail := MessageDetail r; Result := v |}.

(** The fields of [AqaraResponse] with their [json] tags. *)
Definition responseFields : list (@json.field AqaraResponse) :=
  [json.intField "code" set_Code;
   json.stringField "requestId" set_RequestID;
   json.stringField "message" set_Message;
   json.stringField "messageDetail" set_MessageDetail;
   json.rawField "result" set_Result].

Definition set_ExpiresIn (s : string) (r : TokenResult) : TokenResult :=
  {| ExpiresIn := s; OpenID := OpenID r; AccessToken := AccessToken r;
     RefreshToken := RefreshToken r |}.
Definition set_OpenID (s : string) (r : TokenResult) : TokenResult :=
  {| ExpiresIn := ExpiresIn r; OpenID := s; AccessToken := AccessToken r;
     RefreshToken := RefreshToken r |}.
Definition set_AccessToken (s : string) (r : TokenResult) : TokenResult :=
  {| ExpiresIn := ExpiresIn r; OpenID := OpenID r; AccessToken := s;
     RefreshToken := RefreshToken r |}.
Definition set_RefreshToken (s : string) (r : TokenResult) : TokenResult :=
  {| ExpiresIn := ExpiresIn r; OpenID := OpenID r; AccessToken := AccessToken r;
     RefreshToken := s |}.

Definition tokenFields : list (@json.field TokenResult) :=
  [json.stringField "expiresIn" set_ExpiresIn;
   json.stringField "openId" set_OpenID;
   json.stringField "accessToken" set_AccessToken;
   json.stringField "refreshToken" set_RefreshToken].

(** ** Package aqara: the state the methods run in

    A method of [*AqaraClient] reads and writes the client it is called on,
    writes log lines and standard output, and hands requests to the network.
    These are the components of [World]; a method is a function from the
    world before to its result and the world after. *)

Record World : Type := mkWorld {
  client : AqaraClient;
  log : list Printf;
  stdout : list Printf;
  wire : list http.Request
}.

Definition M (A : Type) : Type := World -> A * World.

Definition ret {A : Type} (x : A) : M A := fun w => (x, w).

Definition bind {A B : Type} (m : M A) (k : A -> M B) : M B :=
  fun w => let '(x, w') := m w in k x w'.

Notation "x <- m ;; k" := (bind m (fun x => k))
  (at level 100, m at next level, k at level 200, right associativity).
Notation "m ;; k" := (bind m (fun _ => k))
  (at level 100, k at level 200, right associativity).

Definition getClient : M AqaraClient := fun w => (client w, w).

Definition putClient (a : AqaraClient) : M unit :=
  fun w => (tt, {| client := a; log := log w; stdout := stdout w; wire := wire w |}).

(** [log.Printf] *)
Definition log_Printf (format : string) (args : list Arg) : M unit :=
  fun w => (tt, {| client := client w; log := log w ++ [mkPrintf format args];
                   stdout := stdout w; wire := wire w |}).

(** [fmt.Printf] *)
Definition fmt_Printf (format : string) (args : list Arg) : M unit :=
  fun w => (tt, {| client := client w; log := log w;
                   stdout := stdout w ++ [mkPrintf format args]; wire := wire w |}).

(** [client.Do(request)]: the request goes out, the environment answers. *)
Definition client_Do (env : Env) (request : http.Request) : M http.RoundTrip :=
  fun w => (Do env request,
            {| client := client w; log := log w; stdout := stdout w;
               wire := wire w ++ [request] |}).

(** [a.accessToken = s] and [a.refreshToken = s] *)
Definition assign_accessToken (s : string) : M unit :=
  a <- getClient ;;
  putClient {| region := region a; appID := appID a; keyID := keyID a;
               appKey := appKey a; account := account a; accessToken := s;
               refreshToken := refreshToken a; debug := debug a |}.

Definition assign_refreshToken (s : string) : M unit :=
  a <- getClient ;;
  putClient {| region := region a; appID := appID a; keyID := keyID a;
               appKey := appKey a; account := account a;
               accessToken := accessToken a; refreshToken := s; debug := debug a |}.

(** [if err != nil { log.Printf(format, err) }] *)
Definition log_if_error (format : string) (err : option error) : M unit :=
  match err with
  | Some e => log_Printf format [AErr e]
  | None => ret tt
  end.

Fixpoint for_range {A : Type} (l : list A) (body : A -> M unit) : M unit :=
  match l with
  | [] => ret tt
  | x :: l' => body x ;; for_range l' body
  end.

(** ** Package aqara: the functions *)

(** [New] *)
Definition New (region : AqaraRegionServer) (appID keyID appKey account : string)
    (debug : bool) : AqaraClient :=
  {| region := region; appID := appID; keyID := keyID; appKey := appKey;
     account := account; accessToken := ""; refreshToken := ""; debug := debug |}.

Definition charset : string :=
  "abcdefghijklmnopqrstuvwxyzABCDEFGHIJKLMNOPQRSTUVWXYZ0123456789".

(** [seededRand.Intn(n)], the [i]-th time it is called. *)
Definition Intn (env : Env) (n i : nat) : nat := (rand env i mod n)%nat.

(** [getNonce] *)
Definition getNonce (length : nat) (env : Env) : string :=
  string_of
    (map (fun i => nth (Intn env (len charset) i) (bytes_of charset) 0)
         (seq 0 length)).

(** [getTimestamp] *)
Definition getTimestamp (env : Env) : string := pretty (UnixMilli env).

(** The two formats of [sign], with the operands of [fmt.Sprintf] put in
    for its [%s]. *)
Definition signFormat (a : AqaraClient) (accessToken nonce timestamp : string) : string :=
  if negb (len accessToken =? 0)%nat then
    "Accesstoken=" +:+ accessToken +:+ "&Appid=" +:+ appID a +:+ "&Keyid=" +:+ keyID a
      +:+ "&Nonce=" +:+ nonce +:+ "&Time=" +:+ timestamp +:+ appKey a
  else
    "Appid=" +:+ appID a +:+ "&Keyid=" +:+ keyID a
      +:+ "&Nonce=" +:+ nonce +:+ "&Time=" +:+ timestamp +:+ appKey a.

Definition apiEndpoint : string := "/v3.0/open/api".

Section Client.

(** What the Go release and not this package decides: the lower-case
    mapping of the runes beyond ASCII, the error [http.NewRequest] reports
    for a URL it cannot parse, and the decoding of a device list. *)
Variable caseRangesLower : Z -> Z.
Variable urlParseError : string -> option string.
Variable unmarshalDevices : json.RawMessage -> DevicesResult * option json.Error.

(** [sign] *)
Definition sign (a : AqaraClient) (accessToken nonce timestamp : string) : string :=
  let s := signFormat a accessToken nonce timestamp in
  let s := strings.ToLower caseRangesLower s in
  let hash := md5.Sum (bytes_of s) in
  hex.EncodeToString hash.

(** [http.NewRequest] *)
Definition http_NewRequest (method url : string) (body : json.Value)
    : error + http.Request :=
  match urlParseError url with
  | Some msg => inl (LibraryError msg)
  | None => inr {| http.Method := method; http.URL := url;
                   http.Header := ∅; http.Body := body |}
  end.

(** The headers of [apiCall], in the order it adds them. *)
Definition addHeaders (a : AqaraClient) (authenticated : bool)
    (nonce timestamp : string) (request : http.Request) : http.Request :=
  let '(request, signature) :=
    if authenticated then
      (http.add_header "Accesstoken" (accessToken a) request,
       sign a (accessToken a) nonce timestamp)
    else (request, sign a "" nonce timestamp) in
  let request := http.add_header "Content-Type" "application/json" request in
  let request := http.add_header "Appid" (appID a) request in
  let request := http.add_header "Keyid" (keyID a) request in
  let request := http.add_header "Nonce" nonce request in
  let request := http.add_header "Time" timestamp request in
  let request := http.add_header "Sign" signature request in
  http.add_header "Lang" "en" request.

(** [apiCall]; the envelope behind the pointer [aqaraResponse] is passed in
    and handed back with the error. *)
Definition apiCall (aqaraRequest : AqaraRequest) (aqaraResponse : AqaraResponse)
    (authenticated : bool) (env : Env) : M (AqaraResponse * option error) :=
  a <- getClient ;;
  let url := "https://" +:+ region a +:+ apiEndpoint in
  match json_Marshal aqaraRequest with
  | inl err =>
    log_Printf "Failed to marshal request: %v" [AErr err] ;;
    ret (aqaraResponse, Some err)
  | inr requestBody =>
    match http_NewRequest http.MethodPost url requestBody with
    | inl err =>
      log_Printf "Failed to prepare request: %v" [AErr err] ;;
      ret (aqaraResponse, Some err)
    | inr request =>
      let nonce := getNonce nonceLength env in
      let timestamp := getTimestamp env in
      let request := addHeaders a authenticated nonce timestamp request in
      response <- client_Do env request ;;
      match response with
      | http.DoFailed msg =>
        log_Printf "Failed to do request: %v" [AErr (LibraryError msg)] ;;
        ret (aqaraResponse, Some (LibraryError msg))
      | http.Response StatusCode body =>
        if StatusCode =? http.StatusOK then
          log_Printf "Call to %q successful" [AStr url] ;;
          match body with
          | http.ReadFailed msg =>
            log_Printf "Failed to get response body: %v" [AErr (LibraryError msg)] ;;
            ret (aqaraResponse, Some (LibraryError msg))
          | http.ReadAll responseBody =>
            let '(aqaraResponse, err) :=
              json.Unmarshal responseFields responseBody aqaraResponse in
            match err with
            | Some e =>
              log_Printf "Failed to unmarshal response: %v" [AErr (JSONError e)] ;;
              ret (aqaraResponse, Some (JSONError e))
            | None =>
              if negb (Code aqaraResponse =? 0) then
                log_Printf "Aqara response with code %v received with message %v"
                           [AInt (Code aqaraResponse); AStr (MessageDetail aqaraResponse)] ;;
                ret (aqaraResponse,
                     Some (Errorf "request against Aqara API failed with code: %v"
                                  [OInt (Code aqaraResponse)]))
              else
                (if debug a then log_Printf "**DEBUG**: %v" [ABody responseBody]
                 else ret tt) ;;
                ret (aqaraResponse, None)
            end
          end
        else
          log_Printf "Status %v received" [AInt StatusCode] ;;
          ret (aqaraResponse,
               Some (Errorf "failed to do request: %v" [OInt StatusCode]))
      end
    end
  end.

(** [GetAuthCode] *)
Definition GetAuthCode (env : Env) : M unit :=
  a <- getClient ;;
  let request :=
    {| Intent := "config.auth.getAuthCode";
       Data := AuthCodeData (account a) 0 "1h" |} in
  let response := zeroResponse in
  out <- apiCall request response false env ;;
  let '(response, err) := out in
  log_if_error "Failed to do auth request: %v" err.

(** [GetToken] *)
Definition GetToken (authCode : string) (env : Env) : M unit :=
  a <- getClient ;;
  let request :=
    {| Intent := "config.auth.getToken";
       Data := TokenData authCode (account a) 0 |} in
  let response := zeroResponse in
  out <- apiCall request response false env ;;
  let '(response, err) := out in
  log_if_error "Failed to do token request: %v" err ;;
  if Code response =? 0 then
    log_Printf "Login successful, updating account information" [] ;;
    let '(result, err) :=
      json.Unmarshal tokenFields (Result response) zeroTokenResult in
    log_if_error "Failed to unmarshal result: %v" (option_map JSONError err) ;;
    assign_accessToken (AccessToken result) ;;
    assign_refreshToken (RefreshToken result)
  else ret tt.

(** [GetDevices] *)
Definition GetDevices (env : Env) : M unit :=
  let request :=
    {| Intent := "query.device.info";
       Data := DevicesData [] "" 1 100 |} in
  let response := zeroResponse in
  out <- apiCall request response true env ;;
  let '(response, err) := out in
  log_if_error "Failed query devices: %v" err ;;
  if Code response =? 0 then
    let '(result, err) := unmarshalDevices (Result response) in
    log_if_error "Failed to unmarshal result: %v" (option_map JSONError err) ;;
    log_Printf "Number of devices received: %v" [AInt (TotalCount result)] ;;
    for_range (ResultData result) (fun device =>
      fmt_Printf "Device Name:  %v" [AStr (DeviceName device)] ;;
      fmt_Printf "Device Model: %v" [AStr (Model device)])
  else ret tt.

End Client.

(** ** Vocabulary of the statements *)

(** The lower-casing of ASCII letters alone, byte by byte. *)
Definition asciiLower (s : string) : string := string_map strings.lowerByte s.

(** A character of lower-case hexadecimal. *)
Definition isHexDigit (c : ascii) : bool :=
  ((48 <=? byte_of c) && (byte_of c <=? 57))
  || ((97 <=? byte_of c) && (byte_of c <=? 102)).

(** Two strings that differ at most in the case of ASCII letters. *)
Definition caseEq (s t : string) : Prop := asciiLower s = asciiLower t.

(** The canonical string in the words of the specification: with the
    access token in front when there is one, without it otherwise. *)
Definition canonical_string
    (appID keyID appKey accessToken nonce timestamp : string) : string :=
  if String.eqb accessToken "" then
    "Appid=" +:+ appID +:+ "&Keyid=" +:+ keyID +:+ "&Nonce=" +:+ nonce
      +:+ "&Time=" +:+ timestamp +:+ appKey
  else
    "Accesstoken=" +:+ accessToken +:+ "&Appid=" +:+ appID +:+ "&Keyid=" +:+ keyID
      +:+ "&Nonce=" +:+ nonce +:+ "&Time=" +:+ timestamp +:+ appKey.

(** The signature in the words of the specification: the hexadecimal
    encoding of the MD5 digest of the canonical string with its ASCII
    letters in lower case. *)
Definition signature_spec
    (appID keyID appKey accessToken nonce timestamp : string) : string :=
  hex.EncodeToString
    (md5.Sum (bytes_of (asciiLower
      (canonical_string appID keyID appKey accessToken nonce timestamp)))).

(** The part of [unicode.CaseRanges] that covers the Latin-1 Supplement:
    the capital letters U+00C0..U+00D6 and U+00D8..U+00DE lie 32 below
    their small forms; no other rune up to U+00FF has a lower-case form
    different from itself.  Runes from U+0100 on are left as they are
    here. *)
Definition latin1Lower (r : Z) : Z :=
  if ((0xC0 <=? r) && (r <=? 0xD6)) || ((0xD8 <=? r) && (r <=? 0xDE))
  then r + 32 else r.

(** "É" (U+00C9) and "é" (U+00E9) in UTF-8. *)
Definition E_acute : string := string_of [0xC3; 0x89].
Definition e_acute : string := string_of [0xC3; 0xA9].

Definition apiURL (a : AqaraClient) : string :=
  "https://" +:+ region a +:+ apiEndpoint.

(** The three methods, and the envelope and the flag each hands to
    [apiCall]. *)
Inductive Op : Type :=
| OpGetAuthCode
| OpGetToken (authCode : string)
| OpGetDevices.

Definition requestOf (a : AqaraClient) (op : Op) : AqaraRequest :=
  match op with
  | OpGetAuthCode =>
    {| Intent := "config.auth.getAuthCode"; Data := AuthCodeData (account a) 0 "1h" |}
  | OpGetToken authCode =>
    {| Intent := "config.auth.getToken"; Data := TokenData authCode (account a) 0 |}
  | OpGetDevices =>
    {| Intent := "query.device.info"; Data := DevicesData [] "" 1 100 |}
  end.

Definition authenticatedOf (op : Op) : bool :=
  match op with
  | OpGetDevices => true
  | _ => false
  end.

(** The line a method logs when [apiCall] hands it an error. *)
Definition failureFormat (op : Op) : string :=
  match op with
  | OpGetAuthCode => "Failed to do auth request: %v"
  | OpGetToken _ => "Failed to do token request: %v"
  | OpGetDevices => "Failed query devices: %v"
  end.

Definition initial (a : AqaraClient) : World :=
  {| client := a; log := []; stdout := []; wire := [] |}.

Definition with_log (w : World) (lines : list Printf) : World :=
  {| client := client w; log := log w ++ lines; stdout := stdout w; wire := wire w |}.

Definition with_wire (w : World) (r : http.Request) : World :=
  {| client := client w; log := log w; stdout := stdout w; wire := wire w ++ [r] |}.

Definition with_tokens (w : World) (access refresh : string) : World :=
  {| client := {| region := region (client w); appID := appID (client w);
                  keyID := keyID (client w); appKey := appKey (client w);
                  account := account (client w); accessToken := access;
                  refreshToken := refresh; debug := debug (client w) |};
     log := log w; stdout := stdout w; wire := wire w |}.

Definition with_stdout (w : World) (lines : list Printf) : World :=
  {| client := client w; log := log w; stdout := stdout w ++ lines; wire := wire w |}.

(** The line of [if err != nil { log.Printf(format, err) }], if any. *)
Definition error_lines (format : string) (err : option error) : list Printf :=
  match err with
  | Some e => [mkPrintf format [AErr e]]
  | None => []
  end.

(** What [GetDevices] prints for the devices it received. *)
Definition deviceLines (devices : list Device) : list Printf :=
  flat_map (fun device =>
              [mkPrintf "Device Name:  %v" [AStr (DeviceName device)];
               mkPrintf "Device Model: %v" [AStr (Model device)]]) devices.

(** Both tokens empty, or both populated. *)
Definition paired (access refresh : string) : Prop :=
  (access = "" /\ refresh = "") \/ (access <> "" /\ refresh <> "").

(** An error made by [fmt.Errorf] carries its operands. *)
Definition error_carries (e : error) (o : Operand) : Prop :=
  match e with
  | Errorf _ operands => In o operands
  | _ => False
  end.

Definition vendorError (code : Z) : error :=
  Errorf "request against Aqara API failed with code: %v" [OInt code].

(** The value of the last member of an object that the decoder takes for
    the field [name]. *)
Fixpoint lastMember (name : string) (members : list (string * json.Value))
    : option json.Value :=
  match members with
  | [] => None
  | (key, v) :: members' =>
    match lastMember name members' with
    | Some v' => Some v'
    | None => if json.equalFold name key then Some v else None
    end
  end.

(** What [GetToken] would read in an answer of the server: the envelope,
    and the two tokens of a result payload. *)
Definition envelopeOf (answer : http.RoundTrip) : AqaraResponse :=
  match answer with
  | http.Response StatusCode (http.ReadAll body) =>
    if StatusCode =? http.StatusOK
    then fst (json.Unmarshal responseFields body zeroResponse)
    else zeroResponse
  | _ => zeroResponse
  end.

Definition tokensOf (payload : json.RawMessage) : string * string :=
  let result := fst (json.Unmarshal tokenFields payload zeroTokenResult) in
  (AccessToken result, RefreshToken result).

Definition pairedAnswers (env : Env) : Prop :=
  forall r : http.Request,
    paired (fst (tokensOf (Result (envelopeOf (Do env r)))))
           (snd (tokensOf (Result (envelopeOf (Do env r))))).

(** The outcome of the decoding of a body that was read. *)
Definition decoded (a : AqaraClient) (url : string) (body : json.RawMessage)
    (aqaraResponse : AqaraResponse) : (AqaraResponse * option error) * list Printf :=
  let '(response, err) := json.Unmarshal responseFields body aqaraResponse in
  match err with
  | Some e =>
    ((response, Some (JSONError e)),
     [mkPrintf "Call to %q successful" [AStr url];
      mkPrintf "Failed to unmarshal response: %v" [AErr (JSONError e)]])
  | None =>
    if negb (Code response =? 0) then
      ((response, Some (vendorError (Code response))),
       [mkPrintf "Call to %q successful" [AStr url];
        mkPrintf "Aqara response with code %v received with message %v"
                 [AInt (Code response); AStr (MessageDetail response)]])
    else
      ((response, None),
       mkPrintf "Call to %q successful" [AStr url]
       :: (if debug a then [mkPrintf "**DEBUG**: %v" [ABody body]] else []))
  end.

(** What [apiCall] returns and logs for an answer of the transport. *)
Definition answered (a : AqaraClient) (url : string) (answer : http.RoundTrip)
    (aqaraResponse : AqaraResponse) : (AqaraResponse * option error) * list Printf :=
  match answer with
  | http.DoFailed msg =>
    ((aqaraResponse, Some (LibraryError msg)),
     [mkPrintf "Failed to do request: %v" [AErr (LibraryError msg)]])
  | http.Response StatusCode body =>
    if StatusCode =? http.StatusOK then
      match body with
      | http.ReadFailed msg =>
        ((aqaraResponse, Some (LibraryError msg)),
         [mkPrintf "Call to %q successful" [AStr url];
          mkPrintf "Failed to get response body: %v" [AErr (LibraryError msg)]])
      | http.ReadAll responseBody => decoded a url responseBody aqaraResponse
      end
    else
      ((aqaraResponse, Some (Errorf "failed to do request: %v" [OInt StatusCode])),
       [mkPrintf "Status %v received" [AInt StatusCode]])
  end.

Section Runs.
Variable caseRangesLower : Z -> Z.
Variable urlParseError : string -> option string.
Variable unmarshalDevices : json.RawMessage -> DevicesResult * option json.Error.

(** The request [apiCall] hands to [client.Do] when the URL parses. *)
Definition issued (a : AqaraClient) (aqaraRequest : AqaraRequest)
    (authenticated : bool) (env : Env) : http.Request :=
  addHeaders caseRangesLower a authenticated
    (getNonce nonceLength env) (getTimestamp env)
    {| http.Method := http.MethodPost; http.URL := apiURL a; http.Header := ∅;
       http.Body := json.Obj [("intent", json.Str (Intent aqaraRequest));
                              ("data", marshalData (Data aqaraRequest))] |}.

Definition exec (op : Op) (env : Env) : M unit :=
  match op with
  | OpGetAuthCode => GetAuthCode caseRangesLower urlParseError env
  | OpGetToken authCode => GetToken caseRangesLower urlParseError authCode env
  | OpGetDevices => GetDevices caseRangesLower urlParseError unmarshalDevices env
  end.

(** A sequence of calls, each with what the outside world does during it. *)
Fixpoint run (ops : list (Op * Env)) (w : World) : World :=
  match ops with
  | [] => w
  | (op, env) :: ops' => run ops' (snd (exec op env w))
  end.

End Runs.

(** The headers the specification lists, on a request [r] of the client
    [a]. *)
Definition signedHeaders (lower : Z -> Z) (a : AqaraClient) (authenticated : bool)
    (env : Env) (r : http.Request) : Prop :=
  let nonce := getNonce nonceLength env in
  let timestamp := getTimestamp env in
  http.Header r !! "Sign"
    = Some [sign lower a (if authenticated then accessToken a else "") nonce timestamp]
  /\ http.Header r !! "Accesstoken"
     = (if authenticated then Some [accessToken a] else None)
  /\ http.Header r !! "Content-Type" = Some ["application/json"]
  /\ http.Header r !! "Appid" = Some [appID a]
  /\ http.Header r !! "Keyid" = Some [keyID a]
  /\ http.Header r !! "Nonce" = Some [nonce]
  /\ http.Header r !! "Time" = Some [timestamp]
  /\ http.Header r !! "Lang" = Some ["en"].

(** ** Inputs of the examples *)

(** A release whose URL parser accepts every URL, and a decoder of device
    lists that reports a syntax error for an absent payload and no device
    otherwise. *)
Definition noParseError : string -> option string := fun _ => None.

Definition noDevices (payload : json.RawMessage) : DevicesResult * option json.Error :=
  ({| ResultData := []; TotalCount := 0 |},
   match payload with
   | None => Some json.SyntaxError
   | Some _ => None
   end).

(** A server that gives the same answer to every request. *)
Definition server (answer : http.RoundTrip) : Env :=
  {| rand := fun i => i; UnixMilli := 1618914078668; Do := fun _ => answer |}.

Definition ok (body : json.Value) : http.RoundTrip :=
  http.Response http.StatusOK (http.ReadAll (Some body)).

Definition someClient : AqaraClient :=
  New ServerRegionEurope "4e693d54d75db580a56d1263" "k.78784564654feda454557"
      "gU7Qtxi4dWnYAdmudyxni52bWZ58b8uN" "user@example.com" false.

(** A successful answer to [GetToken]. *)
Definition tokenBody : json.Value :=
  json.Obj [("code", json.Int 0); ("requestId", json.Str "r-1");
            ("message", json.Str "Success"); ("messageDetail", json.Str "");
            ("result", json.Obj [("expiresIn", json.Str "3600");
                                 ("openId", json.Str "o-1");
                                 ("accessToken", json.Str "access-1");
                                 ("refreshToken", json.Str "refresh-1")])].

(** An answer with status code 0 whose payload has no refresh token. *)
Definition halfTokenBody : json.Value :=
  json.Obj [("code", json.Int 0);
            ("result", json.Obj [("accessToken", json.Str "access-1")])].

(** A vendor error. *)
Definition expiredBody : json.Value :=
  json.Obj [("code", json.Int 108); ("requestId", json.Str "r-2");
            ("message", json.Str "Token has expired");
            ("messageDetail", json.Str "accessToken expired, refresh it");
            ("result", json.Str "")].

Definition expiredEnvelope : AqaraResponse :=
  {| Code := 108; RequestID := "r-2"; Message := "Token has expired";
     MessageDetail := "accessToken expired, refresh it";
     Result := Some (json.Str "") |}.

(** Objects without the member [code]. *)
Definition payloadOnlyBody : json.Value :=
  json.Obj [("requestId", json.Str "r-3");
            ("result", json.Obj [("accessToken", json.Str "access-1");
                                 ("refreshToken", json.Str "refresh-1")])].

Definition mistypedBody : json.Value :=
  json.Obj [("message", json.Int 5)].

(** ** The rest of the package and its callers *)

(** A letter or a digit of ASCII, and a decimal digit. *)
Definition isAlnum (c : ascii) : bool :=
  ((97 <=? byte_of c) && (byte_of c <=? 122))
  || ((65 <=? byte_of c) && (byte_of c <=? 90))
  || ((48 <=? byte_of c) && (byte_of c <=? 57)).

Definition isDigit (c : ascii) : bool := (48 <=? byte_of c) && (byte_of c <=? 57).

(** The number a string of decimal digits stands for, and ten to the
    power of its length. *)
Fixpoint decimalPow (s : string) : Z :=
  match s with
  | EmptyString => 1
  | String _ s' => 10 * decimalPow s'
  end.

Fixpoint decimalValue (s : string) : Z :=
  match s with
  | EmptyString => 0
  | String c s' => (byte_of c - 48) * decimalPow s' + decimalValue s'
  end.

(** The client [a] with another value of [debug]. *)
Definition with_debug (a : AqaraClient) (d : bool) : AqaraClient :=
  {| region := region a; appID := appID a; keyID := keyID a; appKey := appKey a;
     account := account a; accessToken := accessToken a;
     refreshToken := refreshToken a; debug := d |}.

Definition with_client (w : World) (a : AqaraClient) : World :=
  {| client := a; log := log w; stdout := stdout w; wire := wire w |}.

(** The envelope the vendor documents for a successful token exchange. *)
Definition tokenAnswer (requestId message messageDetail expiresIn openId
    access refresh : string) : json.Value :=
  json.Obj [("code", json.Int 0); ("requestId", json.Str requestId);
            ("message", json.Str message); ("messageDetail", json.Str messageDetail);
            ("result", json.Obj [("expiresIn", json.Str expiresIn);
                                 ("openId", json.Str openId);
                                 ("accessToken", json.Str access);
                                 ("refreshToken", json.Str refresh)])].

(** [TestSign]: the calls of [t.Errorf] it makes. *)
Definition TestSign (caseRangesLower : Z -> Z) : list Printf :=
  let accessToken := "532cad73c5493193d63d367016b98b27" in
  let appID := "4e693d54d75db580a56d1263" in
  let keyID := "k.78784564654feda454557" in
  let appKey := "gU7Qtxi4dWnYAdmudyxni52bWZ58b8uN" in
  let account := "test" in
  let nonce := "C6wuzd0Qguxzelhb" in
  let timestamp := "1618914078668" in
  let expectedSignature := "314a6f6fd46264e6ec872e21f88361c3" in
  let aqaraClient := New ServerRegionEurope appID appKey keyID account false in
  let signature := sign caseRangesLower aqaraClient accessToken nonce timestamp in
  if negb (String.eqb signature expectedSignature) then
    [mkPrintf "got signature %q, wanted signature %q"
              [AStr signature; AStr expectedSignature]]
  else [].

(** ** Package main (goaqara.go)

    The command-line flags are taken as [flag.Parse] left them, and the
    authorization code as [fmt.Scanln] stored it (empty when it could scan
    nothing).  [fmt.Println(s)] and [fmt.Print(s)] of a string are the
    calls [fmt.Printf("%v\n", s)] and [fmt.Printf("%v", s)]. *)

Module goaqara.

Record Flags : Type := mkFlags {
  appID : string;
  keyID : string;
  appKey : string;
  region : string;
  account : string;
  debug : bool
}.

(** How [main] ends: by [os.Exit] with what it printed, or by returning,
    with the world its client leaves behind. *)
Inductive Outcome : Type :=
| Exit (code : Z) (printed : list Printf)
| Return (w : World).

Definition newline : string := String (ascii_of 10) EmptyString.

Definition Println (s : string) : Printf := mkPrintf ("%v" +:+ newline) [AStr s].

(** The [switch] on the flag [region]: the server, and what is printed. *)
Definition serverRegion (region : string) : AqaraRegionServer * list Printf :=
  if String.eqb region "china" then (ServerRegionChina, [])
  else if String.eqb region "usa" then (ServerRegionUSA, [])
  else if String.eqb region "southkorea" then (ServerRegionSouthKorea, [])
  else if String.eqb region "russia" then (ServerRegionRussia, [])
  else if String.eqb region "europe" then (ServerRegionEurope, [])
  else if String.eqb region "singapore" then (ServerRegionSingapore, [])
  else (ServerRegionEurope,
        [Println "No valid server region provided. Defaulting to 'europe'."]).

Section Main.
Variable caseRangesLower : Z -> Z.
Variable urlParseError : string -> option string.
Variable unmarshalDevices : json.RawMessage -> DevicesResult * option json.Error.

(** [main]; the three calls it makes meet [env1], [env2] and [env3]. *)
Definition main (flags : Flags) (scanned : string) (env1 env2 env3 : Env) : Outcome :=
  let '(serverRegion, printed) := serverRegion (region flags) in
  if String.eqb (appID flags) "" || String.eqb (keyID flags) ""
     || String.eqb (appKey flags) "" || String.eqb (account flags) "" then
    Exit (-1)
         (printed ++
          [Println "You must provide the following arguments: appid, keyid, appkey and account"])
  else
    let aqaraClient :=
      New serverRegion (appID flags) (keyID flags) (appKey flags) (account flags)
          (debug flags) in
    Return
      (snd ((GetAuthCode caseRangesLower urlParseError env1 ;;
             fmt_Printf "%v" [AStr "Enter auth code sent via SMS or email: "] ;;
             GetToken caseRangesLower urlParseError scanned env2 ;;
             GetDevices caseRangesLower urlParseError unmarshalDevices env3)
              {| client := aqaraClient; log := []; stdout := printed; wire := [] |})).

End Main.

End goaqara.



(** * Properties *)

(** ** Bytes *)

Lemma byte_of_range (c : ascii) : 0 <= byte_of c < 256.
Proof.
  unfold byte_of. pose proof (N_ascii_bounded c). lia.
Qed.

Lemma byte_of_inj (c d : ascii) : byte_of c = byte_of d -> c = d.
Proof.
  unfold byte_of. intros H. apply N2Z.inj in H.
  rewrite <- (ascii_N_embedding c), <- (ascii_N_embedding d). by rewrite H.
Qed.

Lemma byte_of_ascii_of (b : Z) : 0 <= b < 256 -> byte_of (ascii_of b) = b.
Proof.
  intros Hb. unfold byte_of, ascii_of.
  rewrite N_ascii_embedding; rewrite Z.mod_small by lia; lia.
Qed.

Lemma ascii_of_byte_of (c : ascii) : ascii_of (byte_of c) = c.
Proof.
  apply byte_of_inj. apply byte_of_ascii_of, byte_of_range.
Qed.

Lemma byte_of_lowerByte (c : ascii) :
  byte_of (strings.lowerByte c) =
  if (65 <=? byte_of c) && (byte_of c <=? 90) then byte_of c + 32 else byte_of c.
Proof.
  unfold strings.lowerByte, strings.isUpperByte.
  destruct ((65 <=? byte_of c) && (byte_of c <=? 90)) eqn:E; [|done].
  apply byte_of_ascii_of. lia.
Qed.

Lemma lowerByte_idem (c : ascii) :
  strings.lowerByte (strings.lowerByte c) = strings.lowerByte c.
Proof.
  apply byte_of_inj. rewrite (byte_of_lowerByte (strings.lowerByte c)).
  rewrite byte_of_lowerByte.
  destruct ((65 <=? byte_of c) && (byte_of c <=? 90)) eqn:E.
  - replace ((65 <=? byte_of c + 32) && (byte_of c + 32 <=? 90)) with false by lia.
    done.
  - by rewrite E.
Qed.

(** ** Strings *)

Lemma string_map_app (f : ascii -> ascii) (s t : string) :
  string_map f (s +:+ t) = string_map f s +:+ string_map f t.
Proof.
  induction s as [|c s IH]; simpl; [done|]. by rewrite IH.
Qed.

Lemma len_string_map (f : ascii -> ascii) (s : string) : len (string_map f s) = len s.
Proof.
  unfold len. induction s as [|c s IH]; simpl; [done|]. by rewrite IH.
Qed.

Lemma string_forallb_app (p : ascii -> bool) (s t : string) :
  string_forallb p (s +:+ t) = string_forallb p s && string_forallb p t.
Proof.
  induction s as [|c s IH]; simpl; [done|]. rewrite IH. by rewrite andb_assoc.
Qed.

Lemma isASCII_app (s t : string) :
  strings.isASCII (s +:+ t) = strings.isASCII s && strings.isASCII t.
Proof. apply string_forallb_app. Qed.

Lemma string_map_lowerByte_id (s : string) :
  strings.hasUpper s = false -> string_map strings.lowerByte s = s.
Proof.
  unfold strings.hasUpper. induction s as [|c s IH]; simpl; [done|].
  intros [Hc Hs]%orb_false_elim. rewrite IH by done.
  unfold strings.lowerByte. by rewrite Hc.
Qed.

(** On a string of ASCII bytes [strings.ToLower] is [asciiLower], whatever
    the table of the release says about other runes. *)
Lemma ToLower_ascii (lower : Z -> Z) (s : string) :
  strings.isASCII s = true -> strings.ToLower lower s = asciiLower s.
Proof.
  intros Hs. unfold strings.ToLower, asciiLower. rewrite Hs.
  destruct (strings.hasUpper s) eqn:E; [done|].
  by rewrite string_map_lowerByte_id.
Qed.

(** ** MD5 and hexadecimal output *)

(** The test suite of RFC 1321, section A.5. *)
Example md5_empty :
  hex.EncodeToString (md5.Sum (bytes_of "")) = "d41d8cd98f00b204e9800998ecf8427e".
Proof. vm_compute. reflexivity. Qed.

Example md5_abc :
  hex.EncodeToString (md5.Sum (bytes_of "abc")) = "900150983cd24fb0d6963f7d28e17f72".
Proof. vm_compute. reflexivity. Qed.

Example md5_digits :
  hex.EncodeToString
    (md5.Sum (bytes_of
      "12345678901234567890123456789012345678901234567890123456789012345678901234567890"))
  = "57edf4a22be3c955ac49da2e2107b67a".
Proof. vm_compute. reflexivity. Qed.

Lemma le_bytes_length (n : nat) (v : Z) : length (md5.le_bytes n v) = n.
Proof.
  revert v. induction n as [|n IH]; intros v; simpl; [done|]. by rewrite IH.
Qed.

Lemma le_bytes_range (n : nat) (v : Z) :
  Forall (fun b => 0 <= b < 256) (md5.le_bytes n v).
Proof.
  revert v. induction n as [|n IH]; intros v; simpl; constructor.
  - apply Z.mod_pos_bound. lia.
  - apply IH.
Qed.

Lemma Sum_length (data : list Z) : length (md5.Sum data) = md5.Size.
Proof.
  unfold md5.Sum.
  destruct (md5.blocks _ md5.init _) as [[[a b] c] d].
  rewrite !length_app, !le_bytes_length. reflexivity.
Qed.

Lemma Sum_range (data : list Z) : Forall (fun b => 0 <= b < 256) (md5.Sum data).
Proof.
  unfold md5.Sum.
  destruct (md5.blocks _ md5.init _) as [[[a b] c] d].
  repeat apply Forall_app_2; apply le_bytes_range.
Qed.

(** The padded message is a whole number of blocks, so that [blocks]
    hashes all of it, as [checkSum] asserts with [d.nx != 0]. *)
Lemma padded_length (data : list Z) :
  (length (data ++ md5.padding (Z.of_nat (length data))) mod md5.BlockSize = 0)%nat.
Proof.
  unfold md5.padding, md5.BlockSize.
  rewrite length_app. simpl length. rewrite length_app, repeat_length. simpl length.
  set (n := Z.of_nat (length data)).
  pose proof (Z.mod_pos_bound (55 - n) 64 ltac:(lia)) as Hm.
  pose proof (Z.div_mod (55 - n) 64 ltac:(lia)) as Hq.
  set (m := (55 - n) mod 64) in *. set (q := (55 - n) / 64) in *.
  apply Nat2Z.inj. rewrite Nat2Z.inj_mod.
  replace (Z.of_nat (length data + S (Z.to_nat m + 8)))
    with ((1 - q) * 64) by lia.
  apply Z.mod_mul. lia.
Qed.

Lemma digit_hex (v : Z) : 0 <= v < 16 -> isHexDigit (hex.digit v) = true.
Proof.
  intros Hv.
  assert (Hn : (Z.to_nat v < 16)%nat) by lia.
  unfold hex.digit. destruct (Z.to_nat v) as [|n]; [reflexivity|].
  do 15 (destruct n as [|n]; [reflexivity|]). lia.
Qed.

Lemma EncodeToString_len (src : list Z) :
  len (hex.EncodeToString src) = (2 * length src)%nat.
Proof.
  unfold len. induction src as [|v src IH]; simpl; [done|]. rewrite IH. lia.
Qed.

Lemma EncodeToString_hex (src : list Z) :
  Forall (fun b => 0 <= b < 256) src ->
  string_forallb isHexDigit (hex.EncodeToString src) = true.
Proof.
  induction 1 as [|v src Hv _ IH]; simpl; [done|].
  rewrite IH, andb_true_r. apply andb_true_intro; split; apply digit_hex.
  - rewrite Z.shiftr_div_pow2 by lia. change (2 ^ 4) with 16.
    split; [apply Z.div_pos; lia|apply Z.div_lt_upper_bound; lia].
  - change 0x0F with (Z.ones 4). rewrite Z.land_ones by lia.
    apply Z.mod_pos_bound. lia.
Qed.

(** ** UTF-8 *)

Example DecodeRuneInString_euro :
  utf8.DecodeRuneInString (string_of [0xE2; 0x82; 0xAC; 0x41]) = (0x20AC, 3%nat).
Proof. vm_compute. reflexivity. Qed.

Example DecodeRuneInString_overlong :
  utf8.DecodeRuneInString (string_of [0xC0; 0x80]) = (utf8.RuneError, 1%nat).
Proof. vm_compute. reflexivity. Qed.

Example DecodeRuneInString_surrogate :
  utf8.DecodeRuneInString (string_of [0xED; 0xA0; 0x80]) = (utf8.RuneError, 1%nat).
Proof. vm_compute. reflexivity. Qed.

Example EncodeRune_euro : bytes_of (utf8.EncodeRune 0x20AC) = [0xE2; 0x82; 0xAC].
Proof. vm_compute. reflexivity. Qed.

Example EncodeRune_emoji :
  bytes_of (utf8.EncodeRune 0x1F600) = [0xF0; 0x9F; 0x98; 0x80].
Proof. vm_compute. reflexivity. Qed.

(** An invalid byte comes out of [strings.Map] as U+FFFD. *)
Example ToLower_invalid_byte :
  bytes_of (strings.ToLower (fun r => r) (string_of [0xFF; 0x41; 0x62]))
  = [0xEF; 0xBF; 0xBD; 0x61; 0x62].
Proof. vm_compute. reflexivity. Qed.

(** ** [strings.ToLower] and the case of ASCII letters *)

Lemma lowerByte_high (c : ascii) : 0x80 <= byte_of c -> strings.lowerByte c = c.
Proof.
  intros Hc. unfold strings.lowerByte, strings.isUpperByte.
  replace ((65 <=? byte_of c) && (byte_of c <=? 90)) with false by lia. done.
Qed.

Lemma lowerByte_low (c : ascii) :
  byte_of c < 0x80 -> byte_of (strings.lowerByte c) < 0x80.
Proof.
  intros Hc. rewrite byte_of_lowerByte.
  destruct ((65 <=? byte_of c) && (byte_of c <=? 90)) eqn:E; lia.
Qed.

Lemma first_lo (b : Z) (sz : nat) (lo hi : Z) :
  utf8.first b = Some (sz, lo, hi) -> 0x80 <= lo.
Proof.
  unfold utf8.first. repeat case_match; intros [= <- <- <-]; lia.
Qed.

(** A byte that passes the test of a continuation byte is no letter, and a
    byte that fails it still fails when its case is changed. *)
Lemma out_of_range_lower (lo hi : Z) (c : ascii) :
  0x80 <= lo ->
  ((byte_of (strings.lowerByte c) <? lo) || (hi <? byte_of (strings.lowerByte c)))
  = ((byte_of c <? lo) || (hi <? byte_of c))
  /\ (((byte_of c <? lo) || (hi <? byte_of c)) = false -> strings.lowerByte c = c).
Proof.
  intros Hlo. pose proof (byte_of_range c) as Hc.
  destruct (Z.lt_ge_cases (byte_of c) 0x80) as [Hlt|Hge].
  - pose proof (lowerByte_low c Hlt). split; [|lia].
    replace (byte_of c <? lo) with true by lia.
    replace (byte_of (strings.lowerByte c) <? lo) with true by lia. done.
  - rewrite lowerByte_high by done. done.
Qed.

Lemma continuation_lower (c : ascii) :
  utf8.continuation (byte_of (strings.lowerByte c)) = utf8.continuation (byte_of c)
  /\ (utf8.continuation (byte_of c) = true -> strings.lowerByte c = c).
Proof.
  unfold utf8.continuation. pose proof (byte_of_range c) as Hc.
  destruct (Z.lt_ge_cases (byte_of c) 0x80) as [Hlt|Hge].
  - pose proof (lowerByte_low c Hlt). split; [|lia].
    replace (0x80 <=? byte_of c) with false by lia.
    replace (0x80 <=? byte_of (strings.lowerByte c)) with false by lia. done.
  - rewrite lowerByte_high by done. done.
Qed.

(** A sequence that starts beyond ASCII decodes to the same rune after the
    letters around it are lower-cased. *)
Lemma DecodeRuneInString_lower (c0 : ascii) (s1 : string) :
  0x80 <= byte_of c0 ->
  utf8.DecodeRuneInString (asciiLower (String c0 s1))
  = utf8.DecodeRuneInString (String c0 s1).
Proof.
  intros H0. unfold asciiLower. simpl. rewrite (lowerByte_high c0 H0).
  destruct (byte_of c0 <? utf8.RuneSelf); [done|].
  destruct (utf8.first (byte_of c0)) as [[[sz lo] hi]|] eqn:Hfirst; [|done].
  apply first_lo in Hfirst.
  destruct s1 as [|c1 s2]; simpl; [done|].
  destruct (out_of_range_lower lo hi c1 Hfirst) as [-> Hsame1].
  destruct ((byte_of c1 <? lo) || (hi <? byte_of c1)); [done|].
  rewrite Hsame1 by done.
  destruct (sz <=? 2)%nat; [done|].
  destruct s2 as [|c2 s3]; simpl; [done|].
  destruct (continuation_lower c2) as [-> Hsame2].
  destruct (utf8.continuation (byte_of c2)); simpl; [|done].
  rewrite Hsame2 by done.
  destruct (sz <=? 3)%nat; [done|].
  destruct s3 as [|c3 s4]; simpl; [done|].
  destruct (continuation_lower c3) as [-> Hsame3].
  destruct (utf8.continuation (byte_of c3)); simpl; [|done].
  by rewrite Hsame3.
Qed.

Lemma drop_bytes_asciiLower (n : nat) (s : string) :
  drop_bytes n (asciiLower s) = asciiLower (drop_bytes n s).
Proof.
  revert s. induction n as [|n IH]; intros [|c s]; simpl; auto.
Qed.

Lemma unicode_ToLower_lowerByte (lower : Z -> Z) (c : ascii) :
  byte_of c < 0x80 ->
  strings.unicode_ToLower lower (byte_of (strings.lowerByte c))
  = strings.unicode_ToLower lower (byte_of c).
Proof.
  intros Hc. rewrite byte_of_lowerByte. unfold strings.unicode_ToLower.
  pose proof (byte_of_range c).
  destruct ((65 <=? byte_of c) && (byte_of c <=? 90)) eqn:E; [|by rewrite E].
  replace (byte_of c + 32 <=? 0x7F) with true by lia.
  replace (byte_of c <=? 0x7F) with true by lia.
  replace ((65 <=? byte_of c + 32) && (byte_of c + 32 <=? 90)) with false by lia.
  done.
Qed.

Lemma Map_loop_cons (fuel : nat) (mapping : Z -> Z) (c : ascii) (s : string) :
  strings.Map_loop (S fuel) mapping (String c s)
  = (let '(r, width) := utf8.DecodeRuneInString (String c s) in
     (if 0 <=? mapping r then utf8.EncodeRune (mapping r) else EmptyString)
       +:+ strings.Map_loop fuel mapping (drop_bytes width (String c s))).
Proof. reflexivity. Qed.

Lemma DecodeRuneInString_width (c : ascii) (s : string) :
  (1 <= snd (utf8.DecodeRuneInString (String c s)))%nat.
Proof.
  unfold utf8.DecodeRuneInString.
  repeat (case_match; simpl; try lia).
Qed.

Lemma len_drop_bytes (n : nat) (s : string) :
  len (drop_bytes n s) = (len s - n)%nat.
Proof.
  unfold len. revert s. induction n as [|n IH]; intros [|c s]; simpl; auto.
Qed.

(** The loop of [Map] ends on the empty string, never on its fuel: more
    fuel than the length of the string changes nothing. *)
Lemma Map_loop_fuel (mapping : Z -> Z) (n fuel : nat) (s : string) :
  (len s <= n)%nat -> (n <= fuel)%nat ->
  strings.Map_loop fuel mapping s = strings.Map_loop n mapping s.
Proof.
  revert fuel s. induction n as [|n IH]; intros fuel s Hs Hfuel.
  - destruct s; [by destruct fuel|]. unfold len in Hs. simpl in Hs. lia.
  - destruct fuel as [|fuel]; [lia|]. destruct s as [|c s]; [done|].
    rewrite !Map_loop_cons.
    pose proof (DecodeRuneInString_width c s) as Hw.
    destruct (utf8.DecodeRuneInString (String c s)) as [r width]. simpl in Hw.
    f_equal. apply IH; [|lia].
    rewrite len_drop_bytes. unfold len in *. simpl in *. lia.
Qed.

Lemma DecodeRuneInString_low (c : ascii) (s : string) :
  byte_of c < 0x80 -> utf8.DecodeRuneInString (String c s) = (byte_of c, 1%nat).
Proof.
  intros Hc. simpl. unfold utf8.RuneSelf.
  by replace (byte_of c <? 0x80) with true by lia.
Qed.

Lemma Map_loop_asciiLower (lower : Z -> Z) (fuel : nat) (s : string) :
  strings.Map_loop fuel (strings.unicode_ToLower lower) (asciiLower s)
  = strings.Map_loop fuel (strings.unicode_ToLower lower) s.
Proof.
  revert s. induction fuel as [|fuel IH]; intros s; [done|].
  destruct s as [|c s]; [done|].
  change (asciiLower (String c s))
    with (String (strings.lowerByte c) (asciiLower s)) at 1.
  rewrite !Map_loop_cons.
  destruct (Z.lt_ge_cases (byte_of c) 0x80) as [Hlt|Hge].
  - rewrite (DecodeRuneInString_low c s Hlt).
    rewrite (DecodeRuneInString_low _ (asciiLower s) (lowerByte_low c Hlt)).
    rewrite unicode_ToLower_lowerByte by done. simpl. by rewrite IH.
  - change (String (strings.lowerByte c) (asciiLower s))
      with (asciiLower (String c s)).
    rewrite DecodeRuneInString_lower by done.
    destruct (utf8.DecodeRuneInString (String c s)) as [r width].
    by rewrite drop_bytes_asciiLower, IH.
Qed.

Lemma isASCII_asciiLower (s : string) :
  strings.isASCII (asciiLower s) = strings.isASCII s.
Proof.
  unfold strings.isASCII, asciiLower, utf8.RuneSelf.
  induction s as [|c s IH]; simpl; [done|]. rewrite IH. f_equal.
  destruct (Z.lt_ge_cases (byte_of c) 0x80) as [Hlt|Hge].
  - pose proof (lowerByte_low c Hlt). lia.
  - by rewrite lowerByte_high.
Qed.

Lemma asciiLower_idem (s : string) : asciiLower (asciiLower s) = asciiLower s.
Proof.
  unfold asciiLower. induction s as [|c s IH]; simpl; [done|].
  by rewrite IH, lowerByte_idem.
Qed.

Lemma ToLower_asciiLower (lower : Z -> Z) (s : string) :
  strings.ToLower lower (asciiLower s) = strings.ToLower lower s.
Proof.
  destruct (strings.isASCII s) eqn:E.
  - rewrite !ToLower_ascii by (by rewrite ?isASCII_asciiLower).
    apply asciiLower_idem.
  - unfold strings.ToLower. rewrite isASCII_asciiLower, E.
    unfold strings.Map, asciiLower. rewrite len_string_map.
    apply Map_loop_asciiLower.
Qed.

(** [strings.ToLower] does not see the case of ASCII letters, on any
    string, valid UTF-8 or not. *)
Lemma ToLower_caseEq (lower : Z -> Z) (s t : string) :
  caseEq s t -> strings.ToLower lower s = strings.ToLower lower t.
Proof.
  intros Hst. rewrite <- (ToLower_asciiLower lower s), Hst.
  apply ToLower_asciiLower.
Qed.

Lemma caseEq_app (s s' t t' : string) :
  caseEq s s' -> caseEq t t' -> caseEq (s +:+ t) (s' +:+ t').
Proof.
  unfold caseEq, asciiLower. intros Hs Ht. by rewrite !string_map_app, Hs, Ht.
Qed.

Lemma caseEq_refl (s : string) : caseEq s s.
Proof. reflexivity. Qed.

Lemma caseEq_len (s t : string) : caseEq s t -> len s = len t.
Proof.
  unfold caseEq, asciiLower. intros H.
  by rewrite <- (len_string_map strings.lowerByte s), H, len_string_map.
Qed.

Lemma signFormat_caseEq (a a' : AqaraClient) (tok tok' n n' ts ts' : string) :
  caseEq (appID a) (appID a') -> caseEq (keyID a) (keyID a') ->
  caseEq (appKey a) (appKey a') ->
  caseEq tok tok' -> caseEq n n' -> caseEq ts ts' ->
  caseEq (signFormat a tok n ts) (signFormat a' tok' n' ts').
Proof.
  intros Hid Hkey Happ Htok Hn Hts. unfold signFormat.
  rewrite (caseEq_len tok tok' Htok).
  destruct (negb (len tok' =? 0)%nat);
    repeat (apply caseEq_app; [done || apply caseEq_refl|]); done.
Qed.

(** ** The signer *)

Example ToLower_E_acute : strings.ToLower latin1Lower E_acute = e_acute.
Proof. vm_compute. reflexivity. Qed.

Example asciiLower_E_acute : asciiLower E_acute = E_acute.
Proof. vm_compute. reflexivity. Qed.

Lemma signFormat_canonical (a : AqaraClient) (tok n ts : string) :
  signFormat a tok n ts = canonical_string (appID a) (keyID a) (appKey a) tok n ts.
Proof.
  unfold signFormat, canonical_string. by destruct tok.
Qed.

(** For every input the signature is the digest of what [strings.ToLower]
    makes of the canonical string. *)
Lemma sign_unfold (lower : Z -> Z) (a : AqaraClient) (tok n ts : string) :
  sign lower a tok n ts =
  hex.EncodeToString
    (md5.Sum (bytes_of (strings.ToLower lower
      (canonical_string (appID a) (keyID a) (appKey a) tok n ts)))).
Proof.
  unfold sign. by rewrite signFormat_canonical.
Qed.

Lemma canonical_string_ascii (id key app tok n ts : string) :
  strings.isASCII id = true -> strings.isASCII key = true ->
  strings.isASCII app = true -> strings.isASCII tok = true ->
  strings.isASCII n = true -> strings.isASCII ts = true ->
  strings.isASCII (canonical_string id key app tok n ts) = true.
Proof.
  intros Hid Hkey Happ Htok Hn Hts. unfold canonical_string.
  destruct (String.eqb tok "");
    rewrite !isASCII_app, ?Hid, ?Hkey, ?Happ, ?Htok, ?Hn, ?Hts; reflexivity.
Qed.

(** C1, as the code has it: [sign] returns the lower-case hexadecimal
    encoding of the MD5 digest of what [strings.ToLower] makes of the
    canonical string, which starts with the access token when that is not
    empty and with the application ID when it is; for every appID, keyID,
    appKey, accessToken, nonce and timestamp made of ASCII bytes that is
    the ASCII-lowercased canonical string. *)
Theorem sign_ascii_lowercased_md5 (lower : Z -> Z) (a : AqaraClient)
    (accessToken nonce timestamp : string) :
  sign lower a accessToken nonce timestamp
  = hex.EncodeToString
      (md5.Sum (bytes_of (strings.ToLower lower
        (canonical_string (appID a) (keyID a) (appKey a) accessToken nonce timestamp))))
  /\ (strings.isASCII (appID a) = true ->
      strings.isASCII (keyID a) = true ->
      strings.isASCII (appKey a) = true ->
      strings.isASCII accessToken = true ->
      strings.isASCII nonce = true ->
      strings.isASCII timestamp = true ->
      sign lower a accessToken nonce timestamp
      = signature_spec (appID a) (keyID a) (appKey a) accessToken nonce timestamp).
Proof.
  split; [apply sign_unfold|].
  intros Hid Hkey Happ Htok Hn Hts.
  rewrite sign_unfold. unfold signature_spec.
  by rewrite ToLower_ascii by (by apply canonical_string_ascii).
Qed.

Lemma sign_ascii_lowercased_md5_witness :
  sign latin1Lower
       (New ServerRegionEurope "4e693d54d75db580a56d1263" "k.78784564654feda454557"
            "gU7Qtxi4dWnYAdmudyxni52bWZ58b8uN" "test" false)
       "532cad73c5493193d63d367016b98b27" "C6wuzd0Qguxzelhb" "1618914078668"
  = signature_spec "4e693d54d75db580a56d1263" "k.78784564654feda454557"
                   "gU7Qtxi4dWnYAdmudyxni52bWZ58b8uN"
                   "532cad73c5493193d63d367016b98b27" "C6wuzd0Qguxzelhb"
                   "1618914078668".
Proof.
  apply (proj2 (sign_ascii_lowercased_md5 latin1Lower
                  (New ServerRegionEurope "4e693d54d75db580a56d1263"
                       "k.78784564654feda454557" "gU7Qtxi4dWnYAdmudyxni52bWZ58b8uN"
                       "test" false)
                  "532cad73c5493193d63d367016b98b27" "C6wuzd0Qguxzelhb"
                  "1618914078668"));
    reflexivity.
Defined.

(** C1 as stated fails beyond ASCII: with the application key "É" the
    code hashes the string that ends in "é", the claim the one that ends
    in "É". *)
Lemma sign_ascii_lowercased_md5_counterexample :
  sign latin1Lower (New ServerRegionEurope "app" "key" E_acute "acct" false)
       "" "nonce" "1618914078668"
  <> signature_spec "app" "key" E_acute "" "nonce" "1618914078668".
Proof.
  vm_compute. discriminate.
Qed.

(** C2: the vector of the vendor's documentation. *)
Theorem sign_known_vector (lower : Z -> Z) (region : AqaraRegionServer)
    (account accessToken refreshToken : string) (debug : bool) :
  sign lower
       {| region := region; appID := "4e693d54d75db580a56d1263";
          keyID := "k.78784564654feda454557";
          appKey := "gU7Qtxi4dWnYAdmudyxni52bWZ58b8uN";
          account := account; accessToken := accessToken;
          refreshToken := refreshToken; debug := debug |}
       "532cad73c5493193d63d367016b98b27" "C6wuzd0Qguxzelhb" "1618914078668"
  = "314a6f6fd46264e6ec872e21f88361c3".
Proof.
  vm_compute. reflexivity.
Qed.

(** [TestSign] hands [New] the application key where the key ID belongs
    and the other way round; the client it builds signs differently. *)
Example TestSign_arguments_swapped (lower : Z -> Z) :
  sign lower
       (New ServerRegionEurope "4e693d54d75db580a56d1263"
            "gU7Qtxi4dWnYAdmudyxni52bWZ58b8uN" "k.78784564654feda454557"
            "test" false)
       "532cad73c5493193d63d367016b98b27" "C6wuzd0Qguxzelhb" "1618914078668"
  = "4e1bc43384386458c6ff061254af645f".
Proof.
  vm_compute. reflexivity.
Qed.

(** The strings that are hashed with and without an access token differ:
    one starts with "ac", the other with "ap".  Whether their digests
    differ is a question about MD5 that this development leaves open. *)
Lemma ToLower_two_letters (lower : Z -> Z) (c1 c2 : ascii) (s : string) :
  byte_of c1 < 0x80 -> byte_of c2 < 0x80 ->
  exists rest : string,
    strings.ToLower lower (String c1 (String c2 s))
    = String (strings.lowerByte c1) (String (strings.lowerByte c2) rest).
Proof.
  intros H1 H2. pose proof (byte_of_range c1). pose proof (byte_of_range c2).
  destruct (strings.isASCII (String c1 (String c2 s))) eqn:E.
  - rewrite ToLower_ascii by done. by eexists.
  - unfold strings.ToLower. rewrite E. unfold strings.Map, len. simpl String.length.
    rewrite Map_loop_cons, (DecodeRuneInString_low c1 _ H1).
    simpl drop_bytes.
    rewrite Map_loop_cons, (DecodeRuneInString_low c2 _ H2).
    simpl drop_bytes.
    assert (Hlow : forall c, 0 <= byte_of c < 0x80 ->
              (if 0 <=? strings.unicode_ToLower lower (byte_of c)
               then utf8.EncodeRune (strings.unicode_ToLower lower (byte_of c))
               else EmptyString)
              = String (strings.lowerByte c) EmptyString).
    { intros c Hc. unfold strings.unicode_ToLower.
      replace (byte_of c <=? 0x7F) with true by lia.
      unfold strings.lowerByte, strings.isUpperByte.
      destruct ((65 <=? byte_of c) && (byte_of c <=? 90)) eqn:Eup.
      - replace (0 <=? byte_of c + 32) with true by lia.
        unfold utf8.EncodeRune.
        by replace (byte_of c + 32 <=? 0x7F) with true by lia.
      - replace (0 <=? byte_of c) with true by lia.
        unfold utf8.EncodeRune.
        replace (byte_of c <=? 0x7F) with true by lia.
        simpl. by rewrite ascii_of_byte_of. }
    rewrite !Hlow by lia. simpl. by eexists.
Qed.

Lemma signing_strings_differ (lower : Z -> Z) (a : AqaraClient)
    (accessToken nonce timestamp : string) :
  accessToken <> "" ->
  strings.ToLower lower (signFormat a accessToken nonce timestamp)
  <> strings.ToLower lower (signFormat a "" nonce timestamp).
Proof.
  intros Htok. unfold signFormat.
  destruct accessToken as [|c tok]; [done|]. simpl negb. cbv iota.
  match goal with
  | |- context ["Accesstoken=" +:+ ?x] =>
    change ("Accesstoken=" +:+ x)
      with (String "A"%char (String "c"%char ("cesstoken=" +:+ x)))
  end.
  match goal with
  | |- context ["Appid=" +:+ ?x] =>
    change ("Appid=" +:+ x)
      with (String "A"%char (String "p"%char ("pid=" +:+ x)))
  end.
  match goal with
  | |- strings.ToLower _ (String ?c1 (String ?c2 ?s)) <> strings.ToLower _ (String ?d1 (String ?d2 ?t)) =>
    destruct (ToLower_two_letters lower c1 c2 s) as [rest ->]; [done|done|];
    destruct (ToLower_two_letters lower d1 d2 t) as [rest' ->]; [done|done|]
  end.
  intros H. discriminate H.
Qed.

Example sign_with_and_without_token (lower : Z -> Z) :
  sign lower someClient "532cad73c5493193d63d367016b98b27" "C6wuzd0Qguxzelhb"
       "1618914078668"
  <> sign lower someClient "" "C6wuzd0Qguxzelhb" "1618914078668".
Proof.
  vm_compute. discriminate.
Qed.

(** C7: the signature is 32 characters of lower-case hexadecimal for every
    input, and two calls whose application ID, key ID, application key,
    access token, nonce and timestamp differ only in the case of ASCII
    letters return the same signature. *)
Theorem sign_hex_and_case_insensitive (lower : Z -> Z) :
  (forall (a : AqaraClient) (accessToken nonce timestamp : string),
     len (sign lower a accessToken nonce timestamp) = 32%nat
     /\ string_forallb isHexDigit (sign lower a accessToken nonce timestamp) = true)
  /\ (forall (a a' : AqaraClient)
        (accessToken accessToken' nonce nonce' timestamp timestamp' : string),
        caseEq (appID a) (appID a') -> caseEq (keyID a) (keyID a') ->
        caseEq (appKey a) (appKey a') ->
        caseEq accessToken accessToken' -> caseEq nonce nonce' ->
        caseEq timestamp timestamp' ->
        sign lower a accessToken nonce timestamp
        = sign lower a' accessToken' nonce' timestamp').
Proof.
  split.
  - intros a tok n ts. unfold sign. split.
    + by rewrite EncodeToString_len, Sum_length.
    + apply EncodeToString_hex, Sum_range.
  - intros a a' tok tok' n n' ts ts' Hid Hkey Happ Htok Hn Hts. unfold sign.
    by rewrite (ToLower_caseEq lower _ _
                  (signFormat_caseEq a a' tok tok' n n' ts ts'
                     Hid Hkey Happ Htok Hn Hts)).
Qed.

Lemma sign_hex_and_case_insensitive_witness :
  sign latin1Lower (New ServerRegionEurope "App1" "K.Key" ("Secret" +:+ E_acute) "me" false)
       "ToKeN" "C6wuzd0Qguxzelhb" "1618914078668"
  = sign latin1Lower (New ServerRegionUSA "aPP1" "k.kEY" ("sECRET" +:+ E_acute) "you" true)
         "tOkEn" "c6WUZD0qGUXZELHB" "1618914078668".
Proof.
  apply (proj2 (sign_hex_and_case_insensitive latin1Lower)); reflexivity.
Defined.

(** ** [apiCall] *)

Section ClientProperties.
Variable caseRangesLower : Z -> Z.
Variable urlParseError : string -> option string.
Variable unmarshalDevices : json.RawMessage -> DevicesResult * option json.Error.

Abbreviation apiCall' := (apiCall caseRangesLower urlParseError).
Abbreviation issued' := (issued caseRangesLower).
Abbreviation exec' := (exec caseRangesLower urlParseError unmarshalDevices).
Abbreviation run' := (run caseRangesLower urlParseError unmarshalDevices).

Ltac world_eq :=
  unfold with_log, with_wire, log_Printf, fmt_Printf, bind, ret; simpl;
  rewrite <- ?app_assoc; simpl; rewrite ?app_nil_r; reflexivity.

Lemma with_log_log (w : World) (l1 l2 : list Printf) :
  with_log (with_log w l1) l2 = with_log w (l1 ++ l2).
Proof.
  unfold with_log. simpl. by rewrite app_assoc.
Qed.

(** [apiCall] in one equation: no request when the URL does not parse,
    otherwise one request and what the answer to it leads to. *)
Lemma apiCall_eq (aqaraRequest : AqaraRequest) (aqaraResponse : AqaraResponse)
    (authenticated : bool) (env : Env) (w : World) :
  apiCall' aqaraRequest aqaraResponse authenticated env w =
  match urlParseError (apiURL (client w)) with
  | Some msg =>
    ((aqaraResponse, Some (LibraryError msg)),
     with_log w [mkPrintf "Failed to prepare request: %v" [AErr (LibraryError msg)]])
  | None =>
    let r := issued' (client w) aqaraRequest authenticated env in
    let '(out, lines) := answered (client w) (apiURL (client w)) (Do env r) aqaraResponse in
    (out, with_log (with_wire w r) lines)
  end.
Proof.
  unfold apiCall, http_NewRequest, bind, getClient. simpl.
  fold (apiURL (client w)).
  destruct (urlParseError (apiURL (client w))) as [msg|]; [reflexivity|].
  simpl. unfold client_Do, bind. simpl.
  fold (issued' (client w) aqaraRequest authenticated env).
  destruct (Do env _) as [msg|StatusCode [msg|body]]; simpl.
  - reflexivity.
  - destruct (StatusCode =? http.StatusOK); [world_eq|reflexivity].
  - destruct (StatusCode =? http.StatusOK); [|reflexivity].
    unfold decoded, bind. simpl.
    destruct (json.Unmarshal responseFields body aqaraResponse) as [response [e|]];
      [world_eq|].
    destruct (negb (Code response =? 0)); [world_eq|].
    destruct (debug (client w)); world_eq.
Qed.

Lemma lookup_Header_Add_eq (key value : string) (h : gmap string (list string)) :
  h !! key = None -> http.Header_Add key value h !! key = Some [value].
Proof.
  intros Hfresh. unfold http.Header_Add. by rewrite Hfresh, lookup_insert_eq.
Qed.

Lemma lookup_Header_Add_ne (key key' value : string) (h : gmap string (list string)) :
  key <> key' -> http.Header_Add key value h !! key' = h !! key'.
Proof.
  intros Hne. unfold http.Header_Add. by rewrite lookup_insert_ne.
Qed.

Ltac header_lookup :=
  repeat (rewrite lookup_Header_Add_ne by discriminate);
  first
    [ apply lookup_empty
    | rewrite lookup_Header_Add_eq;
      [reflexivity
      |repeat (rewrite lookup_Header_Add_ne by discriminate); apply lookup_empty] ].

Lemma issued_signedHeaders (a : AqaraClient) (aqaraRequest : AqaraRequest)
    (authenticated : bool) (env : Env) :
  signedHeaders caseRangesLower a authenticated env
    (issued' a aqaraRequest authenticated env).
Proof.
  unfold signedHeaders, issued, addHeaders.
  destruct authenticated;
    cbv beta iota zeta delta
      [http.add_header http.Header http.Method http.URL http.Body];
    repeat split; header_lookup.
Qed.

(** C4: every request [apiCall] sends is signed over the stored access
    token when [authenticated] is true and over the empty string when it is
    not; it has the header Accesstoken exactly when [authenticated] is true,
    and the headers Content-Type, Appid, Keyid, Nonce, Time, Sign and Lang
    in either case.  One request goes out when the URL parses, none when it
    does not. *)
Theorem apiCall_signs_and_sets_headers (aqaraRequest : AqaraRequest)
    (aqaraResponse : AqaraResponse) (authenticated : bool) (env : Env) (w : World) :
  exists sent : list http.Request,
    wire (snd (apiCall' aqaraRequest aqaraResponse authenticated env w)) = wire w ++ sent
    /\ length sent = match urlParseError (apiURL (client w)) with
                     | Some _ => 0%nat
                     | None => 1%nat
                     end
    /\ Forall (signedHeaders caseRangesLower (client w) authenticated env) sent.
Proof.
  rewrite apiCall_eq.
  destruct (urlParseError (apiURL (client w))) as [msg|].
  - exists []. simpl. by rewrite app_nil_r.
  - exists [issued' (client w) aqaraRequest authenticated env]. simpl.
    destruct (answered _ _ _ _) as [out lines]. simpl.
    split; [done|]. split; [done|].
    constructor; [apply issued_signedHeaders|done].
Qed.

Lemma apiCall_client (aqaraRequest : AqaraRequest) (aqaraResponse : AqaraResponse)
    (authenticated : bool) (env : Env) (w : World) :
  client (snd (apiCall' aqaraRequest aqaraResponse authenticated env w)) = client w.
Proof.
  rewrite apiCall_eq. destruct (urlParseError _); [done|].
  simpl. by destruct (answered _ _ _ _).
Qed.

Lemma log_if_error_eq (format : string) (err : option error) (w : World) :
  log_if_error format err w = (tt, with_log w (error_lines format err)).
Proof.
  destruct err; simpl; [reflexivity|].
  unfold ret, with_log. simpl. rewrite app_nil_r. by destruct w.
Qed.

Lemma for_range_devices (devices : list Device) (w : World) :
  for_range devices (fun device =>
    fmt_Printf "Device Name:  %v" [AStr (DeviceName device)] ;;
    fmt_Printf "Device Model: %v" [AStr (Model device)]) w
  = (tt, with_stdout w (deviceLines devices)).
Proof.
  revert w. induction devices as [|d devices IH]; intros w; simpl.
  - unfold ret, with_stdout. simpl. rewrite app_nil_r. by destruct w.
  - unfold bind at 1. unfold bind at 1. simpl. rewrite IH.
    unfold with_stdout. simpl. by rewrite <- !app_assoc.
Qed.

(** [GetAuthCode] is [apiCall] and the line for its error. *)
Lemma GetAuthCode_eq (env : Env) (w : World) :
  GetAuthCode caseRangesLower urlParseError env w =
  let out := apiCall' (requestOf (client w) OpGetAuthCode) zeroResponse false env w in
  (tt, with_log (snd out) (error_lines "Failed to do auth request: %v" (snd (fst out)))).
Proof.
  unfold GetAuthCode, bind, getClient. simpl.
  destruct (apiCall' _ _ _ _ _) as [[response err] w1]. simpl.
  apply log_if_error_eq.
Qed.

(** [GetToken] is [apiCall], the line for its error and, when the code of
    the envelope is 0 afterwards, the decoding of the result payload and
    the two assignments. *)
Lemma GetToken_eq (authCode : string) (env : Env) (w : World) :
  GetToken caseRangesLower urlParseError authCode env w =
  let out := apiCall' (requestOf (client w) (OpGetToken authCode)) zeroResponse false env w in
  let response := fst (fst out) in
  let w1 := with_log (snd out) (error_lines "Failed to do token request: %v" (snd (fst out))) in
  if Code response =? 0 then
    (tt, with_tokens
           (with_log w1
              (mkPrintf "Login successful, updating account information" []
               :: error_lines "Failed to unmarshal result: %v"
                    (option_map JSONError
                       (snd (json.Unmarshal tokenFields (Result response) zeroTokenResult)))))
           (fst (tokensOf (Result response))) (snd (tokensOf (Result response))))
  else (tt, w1).
Proof.
  unfold GetToken, bind, getClient. simpl.
  destruct (apiCall' _ _ _ _ _) as [[response err] w1]. simpl.
  rewrite log_if_error_eq.
  destruct (Code response =? 0); [|reflexivity].
  unfold tokensOf. simpl.
  destruct (json.Unmarshal tokenFields (Result response) zeroTokenResult)
    as [result err']. simpl. unfold bind. simpl.
  rewrite log_if_error_eq. simpl.
  unfold with_tokens, with_log. simpl. by rewrite <- !app_assoc.
Qed.

(** [GetDevices] likewise, with the count logged and the devices printed
    when the code of the envelope is 0 afterwards. *)
Lemma GetDevices_eq (env : Env) (w : World) :
  GetDevices caseRangesLower urlParseError unmarshalDevices env w =
  let out := apiCall' (requestOf (client w) OpGetDevices) zeroResponse true env w in
  let response := fst (fst out) in
  let w1 := with_log (snd out) (error_lines "Failed query devices: %v" (snd (fst out))) in
  if Code response =? 0 then
    let result := unmarshalDevices (Result response) in
    (tt, with_stdout
           (with_log w1
              (error_lines "Failed to unmarshal result: %v"
                           (option_map JSONError (snd result))
               ++ [mkPrintf "Number of devices received: %v"
                            [AInt (TotalCount (fst result))]]))
           (deviceLines (ResultData (fst result))))
  else (tt, w1).
Proof.
  unfold GetDevices, bind. simpl.
  destruct (apiCall' _ _ _ _ _) as [[response err] w1]. simpl.
  rewrite log_if_error_eq.
  destruct (Code response =? 0); [|reflexivity].
  destruct (unmarshalDevices (Result response)) as [result err']. simpl.
  unfold bind. rewrite log_if_error_eq. simpl.
  rewrite for_range_devices.
  unfold with_stdout, with_log. simpl. by rewrite <- !app_assoc.
Qed.

Lemma methods_keep_client (env : Env) (w : World) :
  client (snd (GetAuthCode caseRangesLower urlParseError env w)) = client w
  /\ client (snd (GetDevices caseRangesLower urlParseError unmarshalDevices env w))
     = client w.
Proof.
  split.
  - rewrite GetAuthCode_eq. simpl. apply apiCall_client.
  - rewrite GetDevices_eq. simpl.
    destruct (Code _ =? 0); simpl; apply apiCall_client.
Qed.

(** C9: [GetAuthCode] and [GetDevices] leave the client as it was: region,
    appID, keyID, appKey, account, accessToken, refreshToken and debug. *)
Theorem GetAuthCode_GetDevices_keep_client (env : Env) (w : World) :
  let a := client w in
  let a1 := client (snd (GetAuthCode caseRangesLower urlParseError env w)) in
  let a2 := client (snd (GetDevices caseRangesLower urlParseError unmarshalDevices env w)) in
  (region a1 = region a /\ appID a1 = appID a /\ keyID a1 = keyID a
   /\ appKey a1 = appKey a /\ account a1 = account a
   /\ accessToken a1 = accessToken a /\ refreshToken a1 = refreshToken a
   /\ debug a1 = debug a)
  /\ (region a2 = region a /\ appID a2 = appID a /\ keyID a2 = keyID a
      /\ appKey a2 = appKey a /\ account a2 = account a
      /\ accessToken a2 = accessToken a /\ refreshToken a2 = refreshToken a
      /\ debug a2 = debug a)
  /\ a1 = a /\ a2 = a.
Proof.
  destruct (methods_keep_client env w) as [H1 H2].
  simpl. rewrite H1, H2. repeat split.
Qed.

(** ** The status code of the envelope *)

(** C5, as the code has it: when the envelope decodes and its status code
    is not 0, [apiCall] returns an error that carries the code (the detail
    message goes to the log, with the code, and not into the error), and
    the calling method does nothing but log that error: the client, the
    standard output and the rest of the log are as [apiCall] left them, so
    the result payload is not decoded. *)
Theorem vendor_error_short_circuits (op : Op) (env : Env) (w : World)
    (body : json.RawMessage) (response : AqaraResponse) :
  urlParseError (apiURL (client w)) = None ->
  Do env (issued' (client w) (requestOf (client w) op) (authenticatedOf op) env)
    = http.Response http.StatusOK (http.ReadAll body) ->
  json.Unmarshal responseFields body zeroResponse = (response, None) ->
  Code response <> 0 ->
  let w1 :=
    with_log
      (with_wire w (issued' (client w) (requestOf (client w) op) (authenticatedOf op) env))
      [mkPrintf "Call to %q successful" [AStr (apiURL (client w))];
       mkPrintf "Aqara response with code %v received with message %v"
                [AInt (Code response); AStr (MessageDetail response)]] in
  apiCall' (requestOf (client w) op) zeroResponse (authenticatedOf op) env w
    = ((response, Some (vendorError (Code response))), w1)
  /\ error_carries (vendorError (Code response)) (OInt (Code response))
  /\ exec' op env w
     = (tt, with_log w1 [mkPrintf (failureFormat op)
                                  [AErr (vendorError (Code response))]]).
Proof.
  intros Hurl Hdo Hjson Hcode w1.
  assert (Hcall : apiCall' (requestOf (client w) op) zeroResponse
                    (authenticatedOf op) env w
                  = ((response, Some (vendorError (Code response))), w1)).
  { rewrite apiCall_eq, Hurl. simpl. rewrite Hdo. simpl.
    unfold decoded. rewrite Hjson.
    replace (Code response =? 0) with false by lia. reflexivity. }
  split; [exact Hcall|]. split; [by left|].
  destruct op as [|authCode|]; simpl in Hcall |- *.
  - rewrite GetAuthCode_eq. simpl. by rewrite Hcall.
  - rewrite GetToken_eq. simpl. rewrite Hcall. simpl.
    by replace (Code response =? 0) with false by lia.
  - rewrite GetDevices_eq. simpl. rewrite Hcall. simpl.
    by replace (Code response =? 0) with false by lia.
Qed.

(** ** An envelope without a status code *)

Arguments json.equalFold : simpl never.

Lemma equalFold_same_key (name name' key : string) :
  json.equalFold name key = true -> json.equalFold name' key = true ->
  json.foldName name = json.foldName name'.
Proof.
  unfold json.equalFold. intros H1%String.eqb_eq H2%String.eqb_eq. congruence.
Qed.

Ltac other_field H :=
  match goal with
  | |- context [json.equalFold ?name ?key] =>
    destruct (json.equalFold name key) eqn:?;
    [try (exfalso; eapply equalFold_same_key in H; [|eassumption]; discriminate H)|]
  end.

(** Members that are not taken for the field [code] leave it alone. *)
Lemma object_Code (members : list (string * json.Value)) (t : AqaraResponse)
    (saved : option json.Error) :
  Forall (fun m => json.equalFold "code" (fst m) = false) members ->
  Code (fst (json.object responseFields members t saved)) = Code t.
Proof.
  intros Hall. revert t saved.
  induction Hall as [|[key v] members Hkey _ IH]; intros t saved; [done|].
  simpl in Hkey. simpl. rewrite Hkey.
  repeat match goal with
         | |- context [json.equalFold ?name key] =>
           destruct (json.equalFold name key);
           [destruct v; simpl; by rewrite IH|]
         end.
  apply IH.
Qed.

(** The field [Result] holds the last member taken for it. *)
Lemma object_Result (members : list (string * json.Value)) (t : AqaraResponse)
    (saved : option json.Error) :
  Result (fst (json.object responseFields members t saved))
  = match lastMember "result" members with
    | Some v => Some v
    | None => Result t
    end.
Proof.
  revert t saved. induction members as [|[key v] members IH]; intros t saved; [done|].
  simpl. destruct (json.equalFold "result" key) eqn:Hres.
  - repeat other_field Hres.
    simpl. rewrite IH. by destruct (lastMember "result" members).
  - repeat match goal with
           | |- context [json.equalFold ?name key] =>
             destruct (json.equalFold name key);
             [destruct v; simpl; try destruct (json.fits_int _); rewrite IH;
              by destruct (lastMember "result" members)|]
           end.
    rewrite IH. by destruct (lastMember "result" members).
Qed.

(** C10, as the code has it: on status 200 and a body that is a JSON
    object with no member for the field [code], whose members decode
    without a type error, [apiCall] returns no error and leaves the code of
    the envelope at 0; the result payload it hands back is the last member
    for the field [result], and is absent when the object has none. *)
Theorem missing_code_is_success (aqaraRequest : AqaraRequest) (authenticated : bool)
    (env : Env) (w : World) (members : list (string * json.Value)) :
  urlParseError (apiURL (client w)) = None ->
  Do env (issued' (client w) aqaraRequest authenticated env)
    = http.Response http.StatusOK (http.ReadAll (Some (json.Obj members))) ->
  Forall (fun m => json.equalFold "code" (fst m) = false) members ->
  snd (json.object responseFields members zeroResponse None) = None ->
  exists response : AqaraResponse,
    fst (apiCall' aqaraRequest zeroResponse authenticated env w) = (response, None)
    /\ Code response = 0
    /\ Result response = lastMember "result" members.
Proof.
  intros Hurl Hdo Hnocode Hnoerr.
  pose proof (object_Code members zeroResponse None Hnocode) as HCode.
  pose proof (object_Result members zeroResponse None) as HResult.
  rewrite apiCall_eq, Hurl. simpl. rewrite Hdo. simpl. unfold decoded. simpl.
  destruct (json.object responseFields members zeroResponse None)
    as [response err]. simpl in *. subst err.
  exists response. rewrite HCode. simpl.
  split; [done|]. split; [done|].
  rewrite HResult. by destruct (lastMember "result" members).
Qed.

(** ** The two tokens *)

Lemma answered_envelope (a : AqaraClient) (url : string) (answer : http.RoundTrip) :
  fst (fst (answered a url answer zeroResponse)) = envelopeOf answer.
Proof.
  destruct answer as [msg|StatusCode [msg|body]]; simpl; [done| |].
  - by destruct (StatusCode =? http.StatusOK).
  - destruct (StatusCode =? http.StatusOK); [|done].
    unfold decoded.
    destruct (json.Unmarshal responseFields body zeroResponse) as [response [e|]];
      [done|].
    simpl. by destruct (negb (Code response =? 0)).
Qed.

(** The envelope [apiCall] hands back to a method: the zero envelope when
    no request went out, what the answer decodes to otherwise. *)
Lemma apiCall_envelope (aqaraRequest : AqaraRequest) (authenticated : bool)
    (env : Env) (w : World) :
  fst (fst (apiCall' aqaraRequest zeroResponse authenticated env w))
  = match urlParseError (apiURL (client w)) with
    | Some _ => zeroResponse
    | None => envelopeOf (Do env (issued' (client w) aqaraRequest authenticated env))
    end.
Proof.
  rewrite apiCall_eq. destruct (urlParseError _); [done|]. simpl.
  rewrite <- (answered_envelope (client w) (apiURL (client w))).
  by destruct (answered _ _ _ _).
Qed.

(** What [GetToken] does to the two tokens depends on the code of the
    envelope after the call alone: at 0 both are assigned, from the one
    decoding of the result payload; otherwise neither is. *)
Lemma GetToken_tokens (authCode : string) (env : Env) (w : World) :
  let response :=
    fst (fst (apiCall' (requestOf (client w) (OpGetToken authCode)) zeroResponse
                       false env w)) in
  let a := client (snd (GetToken caseRangesLower urlParseError authCode env w)) in
  (accessToken a, refreshToken a)
  = if Code response =? 0 then tokensOf (Result response)
    else (accessToken (client w), refreshToken (client w)).
Proof.
  simpl. rewrite GetToken_eq. simpl.
  destruct (Code _ =? 0); simpl.
  - reflexivity.
  - by rewrite apiCall_client.
Qed.

Lemma GetToken_keeps_paired (authCode : string) (env : Env) (w : World) :
  pairedAnswers env ->
  paired (accessToken (client w)) (refreshToken (client w)) ->
  paired (accessToken (client (snd (GetToken caseRangesLower urlParseError authCode env w))))
         (refreshToken (client (snd (GetToken caseRangesLower urlParseError authCode env w)))).
Proof.
  intros Henv Hw. rewrite GetToken_eq. simpl.
  rewrite apiCall_envelope.
  destruct (urlParseError (apiURL (client w))) as [msg|]; simpl.
  - left. done.
  - match goal with |- context [Code ?e =? 0] => destruct (Code e =? 0) end; simpl.
    + apply Henv.
    + by rewrite apiCall_client.
Qed.

Lemma run_keeps_paired (ops : list (Op * Env)) (w : World) :
  Forall (fun step => match fst step with
                      | OpGetToken _ => pairedAnswers (snd step)
                      | _ => True
                      end) ops ->
  paired (accessToken (client w)) (refreshToken (client w)) ->
  paired (accessToken (client (run' ops w))) (refreshToken (client (run' ops w))).
Proof.
  intros Hops. revert w.
  induction Hops as [|[op env] ops Hstep _ IH]; intros w Hw; [done|].
  simpl. apply IH. simpl in Hstep.
  destruct op as [|authCode|]; simpl.
  - by rewrite (proj1 (methods_keep_client env w)).
  - by apply GetToken_keeps_paired.
  - by rewrite (proj2 (methods_keep_client env w)).
Qed.

(** C6, as the code has it: in every state reached from [New] by calls of
    [GetAuthCode], [GetToken] and [GetDevices], the access token and the
    refresh token are both empty or both populated, provided the result
    payloads the server answers [GetToken] with hold the two tokens both
    empty or both populated. *)
Theorem tokens_paired_when_payloads_are (region : AqaraRegionServer)
    (appID keyID appKey account : string) (debug : bool) (ops : list (Op * Env)) :
  Forall (fun step => match fst step with
                      | OpGetToken _ => pairedAnswers (snd step)
                      | _ => True
                      end) ops ->
  let a := client (run' ops (initial (New region appID keyID appKey account debug))) in
  paired (accessToken a) (refreshToken a).
Proof.
  intros Hops. simpl. apply run_keeps_paired; [done|]. by left.
Qed.

End ClientProperties.

(** ** Concrete runs *)

Lemma vendor_error_short_circuits_witness :
  exec latin1Lower noParseError noDevices (OpGetToken "123456")
       (server (ok expiredBody)) (initial someClient)
  = (tt,
     with_log
       (with_log
          (with_wire (initial someClient)
             (issued latin1Lower someClient (requestOf someClient (OpGetToken "123456"))
                     false (server (ok expiredBody))))
          [mkPrintf "Call to %q successful" [AStr (apiURL someClient)];
           mkPrintf "Aqara response with code %v received with message %v"
                    [AInt 108; AStr "accessToken expired, refresh it"]])
       [mkPrintf "Failed to do token request: %v" [AErr (vendorError 108)]]).
Proof.
  apply (vendor_error_short_circuits latin1Lower noParseError noDevices
           (OpGetToken "123456") (server (ok expiredBody)) (initial someClient)
           (Some expiredBody) expiredEnvelope);
    [reflexivity|reflexivity|reflexivity|simpl; lia].
Defined.

(** C5 as stated fails: the error [apiCall] returns for a vendor failure
    carries the status code and not the detail message. *)
Lemma vendor_error_short_circuits_counterexample :
  let out := fst (apiCall latin1Lower noParseError (requestOf someClient OpGetDevices)
                          zeroResponse true (server (ok expiredBody))
                          (initial someClient)) in
  Code (fst out) = 108
  /\ MessageDetail (fst out) = "accessToken expired, refresh it"
  /\ snd out = Some (Errorf "request against Aqara API failed with code: %v" [OInt 108])
  /\ forall e : error,
       snd out = Some e ->
       ~ error_carries e (OStr "accessToken expired, refresh it").
Proof.
  vm_compute. repeat split.
  intros e [= <-] [H|[]]. discriminate H.
Qed.

Lemma missing_code_is_success_witness :
  exists response : AqaraResponse,
    fst (apiCall latin1Lower noParseError (requestOf someClient (OpGetToken "123456"))
                 zeroResponse false (server (ok (json.Obj []))) (initial someClient))
    = (response, None)
    /\ Code response = 0
    /\ Result response = None.
Proof.
  apply (missing_code_is_success latin1Lower noParseError
           (requestOf someClient (OpGetToken "123456")) false
           (server (ok (json.Obj []))) (initial someClient) []);
    [reflexivity|reflexivity|constructor|reflexivity].
Defined.

(** C10 as stated fails on two objects without the member [code]: one
    brings a result payload, which the caller is handed; one has a number
    where the envelope has a string, and [apiCall] returns the decoder's
    error. *)
Lemma missing_code_is_success_counterexample :
  (let out := fst (apiCall latin1Lower noParseError
                           (requestOf someClient (OpGetToken "123456")) zeroResponse
                           false (server (ok payloadOnlyBody)) (initial someClient)) in
   snd out = None /\ Code (fst out) = 0 /\ Result (fst out) <> None)
  /\ (let out := fst (apiCall latin1Lower noParseError
                              (requestOf someClient (OpGetToken "123456")) zeroResponse
                              false (server (ok mistypedBody)) (initial someClient)) in
      snd out = Some (JSONError (json.UnmarshalTypeError "message" (json.Int 5)))).
Proof.
  vm_compute. repeat split. discriminate.
Qed.

Lemma server_tokenBody_paired : pairedAnswers (server (ok tokenBody)).
Proof.
  intros r. right. split; discriminate.
Qed.

Lemma tokens_paired_when_payloads_are_witness :
  let a := client (run latin1Lower noParseError noDevices
                       [(OpGetAuthCode, server (ok (json.Obj [("code", json.Int 0)])));
                        (OpGetToken "123456", server (ok tokenBody));
                        (OpGetDevices, server (ok expiredBody))]
                       (initial someClient)) in
  paired (accessToken a) (refreshToken a).
Proof.
  apply (tokens_paired_when_payloads_are latin1Lower noParseError noDevices
           ServerRegionEurope "4e693d54d75db580a56d1263" "k.78784564654feda454557"
           "gU7Qtxi4dWnYAdmudyxni52bWZ58b8uN" "user@example.com" false).
  constructor; [exact I|].
  constructor; [apply server_tokenBody_paired|].
  constructor; [exact I|constructor].
Defined.

(** C6 as stated fails: a successful answer whose payload has an access
    token and no refresh token leaves the client with one token. *)
Lemma tokens_paired_when_payloads_are_counterexample :
  let a := client (run latin1Lower noParseError noDevices
                       [(OpGetToken "123456", server (ok halfTokenBody))]
                       (initial someClient)) in
  accessToken a = "access-1" /\ refreshToken a = ""
  /\ ~ paired (accessToken a) (refreshToken a).
Proof.
  vm_compute. repeat split.
  intros [[H _]|[_ H]]; [discriminate H|by apply H].
Qed.

(** C3 on the code: after a successful exchange the client holds both
    tokens; a second [GetToken] whose call fails in the transport, on the
    HTTP status or in the decoding of the body finds the code of its zero
    envelope at 0, takes the call for a success and stores the empty
    tokens of an undecodable payload.  A vendor error leaves them alone. *)
Theorem GetToken_failed_call_clears_tokens :
  let tokens (w : World) := (accessToken (client w), refreshToken (client w)) in
  let after (answer : http.RoundTrip) : World :=
    run latin1Lower noParseError noDevices
        [(OpGetToken "123456", server (ok tokenBody));
         (OpGetToken "654321", server answer)]
        (initial someClient) in
  tokens (run latin1Lower noParseError noDevices
              [(OpGetToken "123456", server (ok tokenBody))] (initial someClient))
    = ("access-1", "refresh-1")
  /\ tokens (after (http.DoFailed "dial tcp: i/o timeout")) = ("", "")
  /\ tokens (after (http.Response 500 (http.ReadAll None))) = ("", "")
  /\ tokens (after (http.Response 200 (http.ReadAll None))) = ("", "")
  /\ tokens (after (ok expiredBody)) = ("access-1", "refresh-1")
  /\ log (snd (GetToken latin1Lower noParseError "654321"
                        (server (http.DoFailed "dial tcp: i/o timeout"))
                        (initial someClient)))
     = [mkPrintf "Failed to do request: %v" [AErr (LibraryError "dial tcp: i/o timeout")];
        mkPrintf "Failed to do token request: %v"
                 [AErr (LibraryError "dial tcp: i/o timeout")];
        mkPrintf "Login successful, updating account information" [];
        mkPrintf "Failed to unmarshal result: %v" [AErr (JSONError json.SyntaxError)]].
Proof.
  vm_compute. repeat split.
Qed.

(** * Further properties of the package *)

(** ** [getNonce] and [getTimestamp] *)

Lemma len_string_of (bs : list Z) : len (string_of bs) = length bs.
Proof.
  unfold len. induction bs as [|b bs IH]; simpl; [done|]. by rewrite IH.
Qed.

Lemma string_forallb_string_of (p : ascii -> bool) (bs : list Z) :
  string_forallb p (string_of bs) = forallb (fun b => p (ascii_of b)) bs.
Proof.
  induction bs as [|b bs IH]; simpl; [done|]. by rewrite IH.
Qed.

Lemma charset_alnum (k : nat) :
  (k < len charset)%nat ->
  isAlnum (ascii_of (nth k (bytes_of charset) 0)) = true.
Proof.
  intros Hk.
  assert (Hall : forallb (fun b => isAlnum (ascii_of b)) (bytes_of charset) = true)
    by (vm_compute; reflexivity).
  rewrite forallb_forall in Hall. apply Hall, nth_In.
  by replace (length (bytes_of charset)) with (len charset)
    by (vm_compute; reflexivity).
Qed.

Lemma getNonce_spec (length : nat) (env : Env) :
  len (getNonce length env) = length
  /\ string_forallb isAlnum (getNonce length env) = true.
Proof.
  unfold getNonce. split.
  - by rewrite len_string_of, length_map, length_seq.
  - rewrite string_forallb_string_of, forallb_forall.
    intros b [i [<- _]]%in_map_iff. apply charset_alnum.
    unfold Intn. apply Nat.mod_upper_bound. vm_compute. discriminate.
Qed.

(** X1: [getNonce] returns as many characters as it is asked for, each a
    letter or a digit of ASCII: the index [Intn] gives never leaves the
    character set. *)
Theorem getNonce_length_alphanumeric (length : nat) (env : Env) :
  len (getNonce length env) = length
  /\ string_forallb isAlnum (getNonce length env) = true.
Proof. apply getNonce_spec. Qed.

Lemma pretty_N_char_digit (y : N) :
  (y < 10)%N ->
  isDigit (pretty_N_char y) = true /\ byte_of (pretty_N_char y) - 48 = Z.of_N y.
Proof.
  intros Hy.
  assert (y = 0 \/ y = 1 \/ y = 2 \/ y = 3 \/ y = 4 \/ y = 5 \/ y = 6 \/ y = 7
          \/ y = 8 \/ y = 9)%N as Hcases by lia.
  repeat (destruct Hcases as [->|Hcases]; [by vm_compute|]).
  subst y. by vm_compute.
Qed.

Lemma pretty_N_go_decimal (x : N) (s : string) :
  string_forallb isDigit s = true ->
  string_forallb isDigit (pretty_N_go x s) = true
  /\ decimalValue (pretty_N_go x s) = Z.of_N x * decimalPow s + decimalValue s.
Proof.
  revert s. induction (N.lt_wf_0 x) as [x _ IH]; intros s Hs.
  destruct (decide (x = 0)%N) as [->|Hx].
  - rewrite pretty_N_go_0. split; [done|]. lia.
  - rewrite pretty_N_go_step by lia.
    destruct (pretty_N_char_digit (x `mod` 10)%N) as [Hdigit Hvalue];
      [apply N.mod_lt; lia|].
    destruct (IH (x `div` 10)%N) with (s := String (pretty_N_char (x `mod` 10)) s)
      as [Hall Hval].
    + apply N.div_lt; lia.
    + simpl. by rewrite Hdigit, Hs.
    + split; [done|]. rewrite Hval. simpl. rewrite Hvalue.
      rewrite (N.div_mod x 10) at 3 by lia. lia.
Qed.

Lemma getTimestamp_spec (env : Env) :
  0 <= UnixMilli env ->
  getTimestamp env <> ""
  /\ string_forallb isDigit (getTimestamp env) = true
  /\ decimalValue (getTimestamp env) = UnixMilli env.
Proof.
  intros Hnow. unfold getTimestamp.
  destruct (UnixMilli env) as [|t|t]; [by vm_compute| |lia].
  unfold pretty, pretty_Z, pretty, pretty_positive, pretty, pretty_N.
  destruct (decide (N.pos t = 0)%N) as [|_]; [lia|].
  destruct (pretty_N_go_decimal (N.pos t) "" eq_refl) as [Hall Hval].
  split; [|split; [done|]].
  - intros Hempty. rewrite Hempty in Hval. simpl in Hval. lia.
  - rewrite Hval. simpl. lia.
Qed.

(** X2: from the epoch on, [getTimestamp] returns decimal digits, at
    least one, that read back as the millisecond count of the clock. *)
Theorem getTimestamp_decimal (env : Env) :
  0 <= UnixMilli env ->
  getTimestamp env <> ""
  /\ string_forallb isDigit (getTimestamp env) = true
  /\ decimalValue (getTimestamp env) = UnixMilli env.
Proof. apply getTimestamp_spec. Qed.

Lemma getTimestamp_decimal_witness :
  getTimestamp (server (http.DoFailed "")) <> ""
  /\ string_forallb isDigit (getTimestamp (server (http.DoFailed ""))) = true
  /\ decimalValue (getTimestamp (server (http.DoFailed ""))) = 1618914078668.
Proof.
  apply (getTimestamp_decimal (server (http.DoFailed ""))). simpl. lia.
Defined.

(** ** [sign] *)

(** X3: the timestamp and the application key enter the signature joined
    without a separator: two calls that agree on the application ID, the
    key ID, the access token, the nonce and on the timestamp followed by
    the application key return the same signature. *)
Theorem sign_joins_timestamp_and_appKey (lower : Z -> Z) (a a' : AqaraClient)
    (accessToken nonce timestamp timestamp' : string) :
  appID a = appID a' -> keyID a = keyID a' ->
  timestamp +:+ appKey a = timestamp' +:+ appKey a' ->
  sign lower a accessToken nonce timestamp = sign lower a' accessToken nonce timestamp'.
Proof.
  intros Hid Hkey Hjoin. unfold sign, signFormat. by rewrite Hid, Hkey, Hjoin.
Qed.

Lemma sign_joins_timestamp_and_appKey_witness :
  sign latin1Lower (New ServerRegionEurope "app" "key" "8secret" "me" false)
       "token" "C6wuzd0Qguxzelhb" "161891407866"
  = sign latin1Lower (New ServerRegionEurope "app" "key" "secret" "me" false)
         "token" "C6wuzd0Qguxzelhb" "1618914078668".
Proof.
  apply (sign_joins_timestamp_and_appKey latin1Lower
           (New ServerRegionEurope "app" "key" "8secret" "me" false)
           (New ServerRegionEurope "app" "key" "secret" "me" false));
    reflexivity.
Defined.

(** X4: [TestSign] fails as it is written.  It hands [New] the application
    key in the place of the key ID and the key ID in the place of the
    application key, so the signature it gets is not the one it expects,
    and it reports both. *)
Theorem TestSign_reports_mismatch (lower : Z -> Z) :
  TestSign lower
  = [mkPrintf "got signature %q, wanted signature %q"
              [AStr "4e1bc43384386458c6ff061254af645f";
               AStr "314a6f6fd46264e6ec872e21f88361c3"]].
Proof.
  vm_compute. reflexivity.
Qed.

(** ** [apiCall] and the three methods, further *)

Section MoreClientProperties.
Variable caseRangesLower : Z -> Z.
Variable urlParseError : string -> option string.
Variable unmarshalDevices : json.RawMessage -> DevicesResult * option json.Error.

Abbreviation apiCall' := (apiCall caseRangesLower urlParseError).
Abbreviation issued' := (issued caseRangesLower).
Abbreviation exec' := (exec caseRangesLower urlParseError unmarshalDevices).
Abbreviation GetToken' := (GetToken caseRangesLower urlParseError).
Abbreviation GetDevices' := (GetDevices caseRangesLower urlParseError unmarshalDevices).
Abbreviation GetAuthCode' := (GetAuthCode caseRangesLower urlParseError).

(** X5: [apiCall] returns no error exactly when the URL parses, the answer
    has status 200, its body is read and decodes into the envelope without
    an error, and the code of the envelope is 0 afterwards. *)
Theorem apiCall_succeeds_iff (aqaraRequest : AqaraRequest)
    (aqaraResponse : AqaraResponse) (authenticated : bool) (env : Env) (w : World) :
  snd (fst (apiCall' aqaraRequest aqaraResponse authenticated env w)) = None
  <-> urlParseError (apiURL (client w)) = None
      /\ exists body : json.RawMessage,
           Do env (issued' (client w) aqaraRequest authenticated env)
             = http.Response http.StatusOK (http.ReadAll body)
           /\ snd (json.Unmarshal responseFields body aqaraResponse) = None
           /\ Code (fst (json.Unmarshal responseFields body aqaraResponse)) = 0.
Proof.
  rewrite apiCall_eq.
  destruct (urlParseError (apiURL (client w))) as [msg|]; simpl.
  { split; [discriminate|]. intros [H _]. discriminate H. }
  destruct (Do env _) as [msg|StatusCode [msg|body]]; simpl.
  - split; [discriminate|]. intros [_ (body & H & _)]. discriminate H.
  - split.
    + destruct (StatusCode =? http.StatusOK); discriminate.
    + intros [_ (body & H & _)]. discriminate H.
  - destruct (StatusCode =? http.StatusOK) eqn:Hstatus; simpl.
    + apply Z.eqb_eq in Hstatus. subst StatusCode. unfold decoded.
      destruct (json.Unmarshal responseFields body aqaraResponse)
        as [response [e|]] eqn:Hjson; simpl.
      * split; [discriminate|].
        intros [_ (body' & [= <-] & Herr & _)]. rewrite Hjson in Herr.
        discriminate Herr.
      * destruct (Code response =? 0) eqn:Hcode; simpl.
        -- split; [|done]. intros _. split; [done|]. exists body.
           rewrite Hjson. simpl. split; [done|]. split; [done|]. lia.
        -- split; [discriminate|].
           intros [_ (body' & [= <-] & _ & Hzero)]. rewrite Hjson in Hzero.
           simpl in Hzero. lia.
    + split; [discriminate|].
      intros [_ (body' & [= -> _] & _)]. unfold http.StatusOK in Hstatus. lia.
Qed.

Lemma apiCall_undecoded (aqaraRequest : AqaraRequest)
    (aqaraResponse : AqaraResponse) (authenticated : bool) (env : Env) (w : World) :
  (forall body : json.RawMessage,
     Do env (issued' (client w) aqaraRequest authenticated env)
     <> http.Response http.StatusOK (http.ReadAll body)) ->
  fst (fst (apiCall' aqaraRequest aqaraResponse authenticated env w)) = aqaraResponse
  /\ snd (fst (apiCall' aqaraRequest aqaraResponse authenticated env w)) <> None.
Proof.
  intros Hanswer. rewrite apiCall_eq.
  destruct (urlParseError (apiURL (client w))) as [msg|]; simpl; [done|].
  destruct (Do env _) as [msg|StatusCode [msg|body]] eqn:Hdo; simpl; [done| |].
  - by destruct (StatusCode =? http.StatusOK).
  - destruct (StatusCode =? http.StatusOK) eqn:Hstatus; [|done].
    apply Z.eqb_eq in Hstatus. subst StatusCode. by destruct (Hanswer body).
Qed.

(** X6: unless the answer has status 200 and its body is read, [apiCall]
    fails and hands the envelope back as it got it. *)
Theorem apiCall_keeps_envelope_unless_decoded (aqaraRequest : AqaraRequest)
    (aqaraResponse : AqaraResponse) (authenticated : bool) (env : Env) (w : World) :
  (forall body : json.RawMessage,
     Do env (issued' (client w) aqaraRequest authenticated env)
     <> http.Response http.StatusOK (http.ReadAll body)) ->
  fst (fst (apiCall' aqaraRequest aqaraResponse authenticated env w)) = aqaraResponse
  /\ snd (fst (apiCall' aqaraRequest aqaraResponse authenticated env w)) <> None.
Proof. apply apiCall_undecoded. Qed.

(** X7: a status other than 200 makes [apiCall] return an error that
    carries the status, with one log line; the body of the answer is not
    looked at, and the envelope is handed back as it was. *)
Theorem apiCall_status_error (aqaraRequest : AqaraRequest)
    (aqaraResponse : AqaraResponse) (authenticated : bool) (env : Env) (w : World)
    (StatusCode : Z) (body : http.BodyRead) :
  urlParseError (apiURL (client w)) = None ->
  Do env (issued' (client w) aqaraRequest authenticated env)
    = http.Response StatusCode body ->
  StatusCode <> http.StatusOK ->
  apiCall' aqaraRequest aqaraResponse authenticated env w
  = ((aqaraResponse, Some (Errorf "failed to do request: %v" [OInt StatusCode])),
     with_log (with_wire w (issued' (client w) aqaraRequest authenticated env))
              [mkPrintf "Status %v received" [AInt StatusCode]]).
Proof.
  intros Hurl Hdo Hstatus. rewrite apiCall_eq, Hurl. simpl. rewrite Hdo. simpl.
  by replace (StatusCode =? http.StatusOK) with false by lia.
Qed.

Lemma issued_with_debug (a : AqaraClient) (d : bool) (aqaraRequest : AqaraRequest)
    (authenticated : bool) (env : Env) :
  issued' (with_debug a d) aqaraRequest authenticated env
  = issued' a aqaraRequest authenticated env.
Proof. reflexivity. Qed.

(** X8: the flag [debug] changes nothing but the log.  With and without
    it [apiCall] returns the same envelope and error and sends the same
    request; with it the log has one more line, the raw body, and only
    when the call succeeds. *)
Theorem debug_only_adds_a_log_line (aqaraRequest : AqaraRequest)
    (aqaraResponse : AqaraResponse) (authenticated : bool) (env : Env) (w : World) :
  let quiet := apiCall' aqaraRequest aqaraResponse authenticated env
                        (with_client w (with_debug (client w) false)) in
  let loud := apiCall' aqaraRequest aqaraResponse authenticated env
                       (with_client w (with_debug (client w) true)) in
  fst loud = fst quiet
  /\ wire (snd loud) = wire (snd quiet)
  /\ stdout (snd loud) = stdout (snd quiet)
  /\ exists extra : list Printf,
       log (snd loud) = log (snd quiet) ++ extra
       /\ (length extra <= 1)%nat
       /\ Forall (fun line => format line = "**DEBUG**: %v") extra
       /\ (snd (fst quiet) <> None -> extra = []).
Proof.
  assert (Hsame : forall (err : option error) (x : list Printf),
            exists extra : list Printf,
              x = x ++ extra /\ (length extra <= 1)%nat
              /\ Forall (fun line => format line = "**DEBUG**: %v") extra
              /\ (err <> None -> extra = [])).
  { intros err x. exists []. rewrite app_nil_r.
    split; [done|]. split; [simpl; lia|]. split; [constructor|done]. }
  simpl. rewrite !apiCall_eq. simpl client.
  change (apiURL (with_debug (client w) true)) with (apiURL (client w)).
  change (apiURL (with_debug (client w) false)) with (apiURL (client w)).
  destruct (urlParseError (apiURL (client w))) as [msg|]; simpl.
  { do 3 (split; [done|]). apply Hsame. }
  rewrite !issued_with_debug.
  destruct (Do env _) as [msg|StatusCode [msg|body]]; simpl.
  - do 3 (split; [done|]). apply Hsame.
  - destruct (StatusCode =? http.StatusOK); simpl;
      (do 3 (split; [done|]); apply Hsame).
  - destruct (StatusCode =? http.StatusOK); simpl;
      [|do 3 (split; [done|]); apply Hsame].
    unfold decoded.
    destruct (json.Unmarshal responseFields body aqaraResponse) as [response [e|]];
      simpl; [do 3 (split; [done|]); apply Hsame|].
    destruct (negb (Code response =? 0)); simpl;
      [do 3 (split; [done|]); apply Hsame|].
    do 3 (split; [done|]). exists [mkPrintf "**DEBUG**: %v" [ABody body]].
    split; [by rewrite <- app_assoc|]. split; [simpl; lia|].
    split; [by repeat constructor|done].
Qed.

Lemma apiCall_world (aqaraRequest : AqaraRequest) (aqaraResponse : AqaraResponse)
    (authenticated : bool) (env : Env) (w : World) :
  let w' := snd (apiCall' aqaraRequest aqaraResponse authenticated env w) in
  client w' = client w
  /\ stdout w' = stdout w
  /\ wire w' = wire w ++ match urlParseError (apiURL (client w)) with
                         | Some _ => []
                         | None => [issued' (client w) aqaraRequest authenticated env]
                         end
  /\ exists lines : list Printf, log w' = log w ++ lines.
Proof.
  simpl. rewrite apiCall_eq.
  destruct (urlParseError (apiURL (client w))) as [msg|]; simpl.
  - rewrite app_nil_r. repeat (split; [done|]). by eexists.
  - destruct (answered _ _ _ _) as [out lines]. simpl.
    repeat (split; [done|]). by eexists.
Qed.

(** What a method leaves behind, component by component. *)
Lemma exec_world (op : Op) (env : Env) (w : World) :
  let w' := snd (exec' op env w) in
  wire w' = wire w ++ match urlParseError (apiURL (client w)) with
                      | Some _ => []
                      | None => [issued' (client w) (requestOf (client w) op)
                                         (authenticatedOf op) env]
                      end
  /\ (exists lines : list Printf, log w' = log w ++ lines)
  /\ (exists out : list Printf,
        stdout w' = stdout w ++ out /\ (op <> OpGetDevices -> out = []))
  /\ region (client w') = region (client w)
  /\ appID (client w') = appID (client w)
  /\ keyID (client w') = keyID (client w)
  /\ appKey (client w') = appKey (client w)
  /\ account (client w') = account (client w)
  /\ debug (client w') = debug (client w).
Proof.
  destruct op as [|authCode|]; simpl.
  - rewrite GetAuthCode_eq. simpl.
    destruct (apiCall_world (requestOf (client w) OpGetAuthCode) zeroResponse
                false env w) as (Hclient & Hout & Hwire & lines & Hlog).
    simpl in *. rewrite Hclient, Hout, Hwire, Hlog.
    split; [done|]. split; [rewrite <- app_assoc; by eexists|].
    split; [exists []; by rewrite app_nil_r|]. done.
  - rewrite GetToken_eq. simpl.
    destruct (apiCall_world (requestOf (client w) (OpGetToken authCode)) zeroResponse
                false env w) as (Hclient & Hout & Hwire & lines & Hlog).
    simpl in *. destruct (Code _ =? 0); simpl; rewrite ?Hclient, Hout, Hwire, Hlog.
    + split; [done|]. split; [rewrite <- !app_assoc; by eexists|].
      split; [exists []; by rewrite app_nil_r|]. done.
    + split; [done|]. split; [rewrite <- app_assoc; by eexists|].
      split; [exists []; by rewrite app_nil_r|]. done.
  - rewrite GetDevices_eq. simpl.
    destruct (apiCall_world (requestOf (client w) OpGetDevices) zeroResponse
                true env w) as (Hclient & Hout & Hwire & lines & Hlog).
    simpl in *. destruct (Code _ =? 0); simpl; rewrite ?Hclient, Hout, Hwire, Hlog.
    + split; [done|]. split; [rewrite <- !app_assoc; by eexists|].
      split; [by eexists|]. done.
    + split; [done|]. split; [rewrite <- app_assoc; by eexists|].
      split; [exists []; by rewrite app_nil_r|]. done.
Qed.



(** X10: a method only adds to the log, to the standard output and to the
    requests sent, at most one request, and only [GetDevices] writes to
    the standard output; the region, the credentials, the account and the
    flag [debug] of the client are never written, by [GetToken] either. *)
Theorem methods_only_append (op : Op) (env : Env) (w : World) :
  let w' := snd (exec' op env w) in
  (exists lines : list Printf, log w' = log w ++ lines)
  /\ (exists sent : list http.Request,
        wire w' = wire w ++ sent /\ (length sent <= 1)%nat)
  /\ (exists out : list Printf,
        stdout w' = stdout w ++ out /\ (op <> OpGetDevices -> out = []))
  /\ region (client w') = region (client w)
  /\ appID (client w') = appID (client w)
  /\ keyID (client w') = keyID (client w)
  /\ appKey (client w') = appKey (client w)
  /\ account (client w') = account (client w)
  /\ debug (client w') = debug (client w).
Proof.
  destruct (exec_world op env w) as (Hwire & Hlog & Hrest). simpl in *.
  split; [exact Hlog|]. split; [|exact Hrest].
  eexists. split; [exact Hwire|]. destruct (urlParseError _); simpl; lia.
Qed.

Lemma GetToken_documented (authCode : string) (env : Env) (w : World)
    (requestId message messageDetail expiresIn openId access refresh : string) :
  urlParseError (apiURL (client w)) = None ->
  Do env (issued' (client w) (requestOf (client w) (OpGetToken authCode)) false env)
    = ok (tokenAnswer requestId message messageDetail expiresIn openId access refresh) ->
  client (snd (GetToken' authCode env w)) = client (with_tokens w access refresh).
Proof.
  intros Hurl Hdo.
  assert (Henvelope :
    envelopeOf (ok (tokenAnswer requestId message messageDetail expiresIn openId
                                access refresh))
    = {| Code := 0; RequestID := requestId; Message := message;
         MessageDetail := messageDetail;
         Result := Some (json.Obj [("expiresIn", json.Str expiresIn);
                                   ("openId", json.Str openId);
                                   ("accessToken", json.Str access);
                                   ("refreshToken", json.Str refresh)]) |})
    by (vm_compute; reflexivity).
  assert (Htokens :
    tokensOf (Some (json.Obj [("expiresIn", json.Str expiresIn);
                              ("openId", json.Str openId);
                              ("accessToken", json.Str access);
                              ("refreshToken", json.Str refresh)]))
    = (access, refresh)) by (vm_compute; reflexivity).
  rewrite GetToken_eq. cbv zeta.
  rewrite apiCall_envelope, Hurl, Hdo, Henvelope.
  cbn [Code Result]. change (0 =? 0) with true. cbv iota.
  rewrite Htokens. cbn [snd fst with_tokens with_log client].
  by rewrite apiCall_client.
Qed.

(** X11: on the answer the vendor documents for a token exchange, status
    200 and an envelope of code 0 whose result holds the two tokens,
    [GetToken] stores exactly these two tokens and leaves the rest of the
    client alone. *)
Theorem GetToken_stores_documented_tokens (authCode : string) (env : Env) (w : World)
    (requestId message messageDetail expiresIn openId access refresh : string) :
  urlParseError (apiURL (client w)) = None ->
  Do env (issued' (client w) (requestOf (client w) (OpGetToken authCode)) false env)
    = ok (tokenAnswer requestId message messageDetail expiresIn openId access refresh) ->
  client (snd (GetToken' authCode env w))
  = {| region := region (client w); appID := appID (client w);
       keyID := keyID (client w); appKey := appKey (client w);
       account := account (client w); accessToken := access;
       refreshToken := refresh; debug := debug (client w) |}.
Proof.
  intros Hurl Hdo. by rewrite (GetToken_documented _ _ _ _ _ _ _ _ _ _ Hurl Hdo).
Qed.

(** X12: [GetDevices] after such a [GetToken] sends the access token that
    [GetToken] stored, in the header Accesstoken, and signs over it. *)
Theorem GetDevices_sends_stored_token (authCode : string) (env2 env3 : Env) (w : World)
    (requestId message messageDetail expiresIn openId access refresh : string) :
  urlParseError (apiURL (client w)) = None ->
  Do env2 (issued' (client w) (requestOf (client w) (OpGetToken authCode)) false env2)
    = ok (tokenAnswer requestId message messageDetail expiresIn openId access refresh) ->
  let w2 := snd (GetToken' authCode env2 w) in
  exists r : http.Request,
    wire (snd (GetDevices' env3 w2)) = wire w2 ++ [r]
    /\ http.Header r !! "Accesstoken" = Some [access]
    /\ http.Header r !! "Sign"
       = Some [sign caseRangesLower (client w) access
                    (getNonce nonceLength env3) (getTimestamp env3)].
Proof.
  intros Hurl Hdo w2.
  pose proof (GetToken_documented _ _ _ _ _ _ _ _ _ _ Hurl Hdo) as Hclient.
  fold w2 in Hclient.
  destruct (exec_world OpGetDevices env3 w2) as (Hwire & _).
  cbv zeta in Hwire. cbn [exec authenticatedOf] in Hwire.
  replace (apiURL (client w2)) with (apiURL (client w)) in Hwire
    by (by rewrite Hclient).
  rewrite Hurl in Hwire.
  exists (issued' (client w2) (requestOf (client w2) OpGetDevices) true env3).
  split; [exact Hwire|].
  destruct (issued_signedHeaders caseRangesLower (client w2)
              (requestOf (client w2) OpGetDevices) true env3)
    as (Hsign & Htoken & _).
  rewrite Hsign, Htoken, Hclient. done.
Qed.

(** X13: [GetDevices] on a client without an access token does not hold
    back: it sends the header Accesstoken with an empty value, and its
    signature is the one of an unauthenticated call, as [GetAuthCode]
    makes it. *)
Theorem GetDevices_without_token (env : Env) (w : World) :
  urlParseError (apiURL (client w)) = None ->
  accessToken (client w) = "" ->
  exists r r' : http.Request,
    wire (snd (GetDevices' env w)) = wire w ++ [r]
    /\ wire (snd (GetAuthCode' env w)) = wire w ++ [r']
    /\ http.Header r !! "Accesstoken" = Some [""]
    /\ http.Header r' !! "Accesstoken" = None
    /\ http.Header r !! "Sign" = http.Header r' !! "Sign".
Proof.
  intros Hurl Hempty.
  destruct (exec_world OpGetDevices env w) as (Hwire & _).
  destruct (exec_world OpGetAuthCode env w) as (Hwire' & _).
  cbv zeta in Hwire, Hwire'. cbn [exec authenticatedOf] in Hwire, Hwire'.
  rewrite Hurl in Hwire, Hwire'.
  exists (issued' (client w) (requestOf (client w) OpGetDevices) true env),
         (issued' (client w) (requestOf (client w) OpGetAuthCode) false env).
  split; [exact Hwire|]. split; [exact Hwire'|].
  destruct (issued_signedHeaders caseRangesLower (client w)
              (requestOf (client w) OpGetDevices) true env)
    as (Hsign & Htoken & _).
  destruct (issued_signedHeaders caseRangesLower (client w)
              (requestOf (client w) OpGetAuthCode) false env)
    as (Hsign' & Htoken' & _).
  rewrite Hsign, Htoken, Hsign', Htoken', Hempty. done.
Qed.

(** X14: [GetDevices] does not stop at a failed call.  When the answer is
    anything but a status 200 with a body that is read, it logs the
    failure, finds the code of its zero envelope at 0, decodes the absent
    result payload, logs the number of devices of that decoding last and
    prints its devices. *)
Theorem GetDevices_goes_on_after_failure (env : Env) (w : World) :
  (forall body : json.RawMessage,
     Do env (issued' (client w) (requestOf (client w) OpGetDevices) true env)
     <> http.Response http.StatusOK (http.ReadAll body)) ->
  let w' := snd (GetDevices' env w) in
  (exists e : error, In (mkPrintf "Failed query devices: %v" [AErr e]) (log w'))
  /\ last (log w')
     = Some (mkPrintf "Number of devices received: %v"
                      [AInt (TotalCount (fst (unmarshalDevices None)))])
  /\ stdout w' = stdout w ++ deviceLines (ResultData (fst (unmarshalDevices None))).
Proof.
  intros Hanswer.
  destruct (apiCall_undecoded (requestOf (client w) OpGetDevices) zeroResponse true
              env w Hanswer) as [Henvelope Herror].
  destruct (apiCall_world (requestOf (client w) OpGetDevices) zeroResponse true env w)
    as (_ & Hout & _).
  simpl. rewrite GetDevices_eq. simpl in *. rewrite Henvelope. simpl.
  destruct (snd (fst (apiCall' _ _ _ _ _))) as [e|]; [|done].
  split; [|split].
  - exists e. rewrite !in_app_iff. simpl. tauto.
  - rewrite !app_assoc. apply last_snoc.
  - by rewrite Hout.
Qed.

(** X17: every request [apiCall] sends carries a nonce of 16 letters and
    digits in the header Nonce and, from the epoch on, the millisecond
    count of the clock in decimal digits in the header Time. *)
Theorem apiCall_nonce_and_time (aqaraRequest : AqaraRequest)
    (aqaraResponse : AqaraResponse) (authenticated : bool) (env : Env) (w : World) :
  0 <= UnixMilli env ->
  Forall (fun r =>
            exists nonce timestamp : string,
              http.Header r !! "Nonce" = Some [nonce]
              /\ http.Header r !! "Time" = Some [timestamp]
              /\ len nonce = 16%nat
              /\ string_forallb isAlnum nonce = true
              /\ string_forallb isDigit timestamp = true
              /\ decimalValue timestamp = UnixMilli env)
         (skipn (length (wire w))
                (wire (snd (apiCall' aqaraRequest aqaraResponse authenticated env w)))).
Proof.
  intros Hnow.
  destruct (apiCall_world aqaraRequest aqaraResponse authenticated env w)
    as (_ & _ & -> & _).
  rewrite drop_app_length.
  destruct (urlParseError (apiURL (client w))); constructor; [|constructor].
  destruct (issued_signedHeaders caseRangesLower (client w) aqaraRequest
              authenticated env) as (_ & _ & _ & _ & _ & Hnonce & Htime & _).
  destruct (getNonce_spec nonceLength env) as [Hlen Halnum].
  destruct (getTimestamp_spec env Hnow) as (_ & Hdigits & Hvalue).
  by exists (getNonce nonceLength env), (getTimestamp env).
Qed.

(** X18: what [GetToken] does to the tokens is decided by the answer read
    as an envelope, the zero envelope when the status is not 200 or the
    body is not read.  When the code of that envelope is 0, both tokens
    are set to what its result payload holds, empty for what it does not
    hold; otherwise both stay as they were. *)
Theorem GetToken_tokens_by_code (authCode : string) (env : Env) (w : World) :
  urlParseError (apiURL (client w)) = None ->
  let answer :=
    Do env (issued' (client w) (requestOf (client w) (OpGetToken authCode)) false env) in
  let a := client (snd (GetToken' authCode env w)) in
  (accessToken a, refreshToken a)
  = if Code (envelopeOf answer) =? 0 then tokensOf (Result (envelopeOf answer))
    else (accessToken (client w), refreshToken (client w)).
Proof.
  intros Hurl.
  pose proof (GetToken_tokens caseRangesLower urlParseError authCode env w) as Htok.
  cbv zeta in Htok |- *. by rewrite apiCall_envelope, Hurl in Htok.
Qed.

End MoreClientProperties.

(** ** [main] *)

Section MainProperties.
Variable caseRangesLower : Z -> Z.
Variable urlParseError : string -> option string.
Variable unmarshalDevices : json.RawMessage -> DevicesResult * option json.Error.

Abbreviation main' := (goaqara.main caseRangesLower urlParseError unmarshalDevices).
Abbreviation exec' := (exec caseRangesLower urlParseError unmarshalDevices).
Abbreviation issued' := (issued caseRangesLower).

Lemma bind_then_snd {A B : Type} (m : M A) (k : M B) (w : World) :
  snd ((m ;; k) w) = snd (k (snd (m w))).
Proof.
  unfold bind. by destruct (m w).
Qed.





(** X19: [main] turns no region away.  A name other than china, usa,
    southkorea, russia, europe and singapore is reported on the standard
    output, first of all, and the run goes on with the European server. *)
Theorem main_unknown_region_defaults (flags : goaqara.Flags) (scanned : string)
    (env1 env2 env3 : Env) :
  ~ In (goaqara.region flags)
       ["china"; "usa"; "southkorea"; "russia"; "europe"; "singapore"] ->
  goaqara.appID flags <> "" -> goaqara.keyID flags <> "" ->
  goaqara.appKey flags <> "" -> goaqara.account flags <> "" ->
  exists (w : World) (rest : list Printf),
    main' flags scanned env1 env2 env3 = goaqara.Return w
    /\ region (client w) = ServerRegionEurope
    /\ stdout w
       = goaqara.Println "No valid server region provided. Defaulting to 'europe'."
         :: rest.
Proof.
  intros Hregion Hid Hkey Happ Haccount.
  assert (Hsel : goaqara.serverRegion (goaqara.region flags)
                 = (ServerRegionEurope,
                    [goaqara.Println
                       "No valid server region provided. Defaulting to 'europe'."])).
  { unfold goaqara.serverRegion.
    repeat (case_match;
            [exfalso; apply Hregion;
             match goal with H : String.eqb _ _ = true |- _ =>
               apply String.eqb_eq in H; rewrite H end; simpl; tauto|]).
    done. }
  unfold goaqara.main. rewrite Hsel.
  replace (String.eqb (goaqara.appID flags) "") with false
    by (symmetry; by apply String.eqb_neq).
  replace (String.eqb (goaqara.keyID flags) "") with false
    by (symmetry; by apply String.eqb_neq).
  replace (String.eqb (goaqara.appKey flags) "") with false
    by (symmetry; by apply String.eqb_neq).
  replace (String.eqb (goaqara.account flags) "") with false
    by (symmetry; by apply String.eqb_neq).
  simpl orb. cbv iota.
  set (w0 := {| client := New ServerRegionEurope (goaqara.appID flags)
                              (goaqara.keyID flags) (goaqara.appKey flags)
                              (goaqara.account flags) (goaqara.debug flags);
                log := [];
                stdout := [goaqara.Println
                             "No valid server region provided. Defaulting to 'europe'."];
                wire := [] |}).
  rewrite !bind_then_snd.
  change (GetAuthCode caseRangesLower urlParseError env1 w0)
    with (exec' OpGetAuthCode env1 w0).
  set (w1 := snd (exec' OpGetAuthCode env1 w0)).
  set (w1' := snd (fmt_Printf "%v" [AStr "Enter auth code sent via SMS or email: "] w1)).
  change (GetToken caseRangesLower urlParseError scanned env2 w1')
    with (exec' (OpGetToken scanned) env2 w1').
  set (w2 := snd (exec' (OpGetToken scanned) env2 w1')).
  change (GetDevices caseRangesLower urlParseError unmarshalDevices env3 w2)
    with (exec' OpGetDevices env3 w2).
  destruct (exec_world caseRangesLower urlParseError unmarshalDevices
              OpGetAuthCode env1 w0)
    as (_ & _ & (out1 & Hout1 & _) & Hregion1 & _).
  destruct (exec_world caseRangesLower urlParseError unmarshalDevices
              (OpGetToken scanned) env2 w1')
    as (_ & _ & (out2 & Hout2 & _) & Hregion2 & _).
  destruct (exec_world caseRangesLower urlParseError unmarshalDevices
              OpGetDevices env3 w2)
    as (_ & _ & (out3 & Hout3 & _) & Hregion3 & _).
  cbv zeta in Hout1, Hout2, Hout3, Hregion1, Hregion2, Hregion3.
  fold w1 in Hout1, Hregion1. fold w2 in Hout2, Hregion2.
  assert (Hprompt : stdout w1'
                    = stdout w1
                      ++ [mkPrintf "%v" [AStr "Enter auth code sent via SMS or email: "]]
                    /\ client w1' = client w1) by done.
  destruct Hprompt as [Hout1' Hclient1'].
  eexists. eexists. split; [reflexivity|].
  split; [by rewrite Hregion3, Hregion2, Hclient1', Hregion1|].
  rewrite Hout3, Hout2, Hout1', Hout1. simpl. reflexivity.
Qed.

End MainProperties.

(** ** The further properties on concrete runs *)

Lemma apiCall_succeeds_iff_witness :
  snd (fst (apiCall latin1Lower noParseError (requestOf someClient (OpGetToken "123456"))
                    zeroResponse false (server (ok tokenBody)) (initial someClient)))
  = None.
Proof.
  apply (proj2 (apiCall_succeeds_iff latin1Lower noParseError
                  (requestOf someClient (OpGetToken "123456")) zeroResponse false
                  (server (ok tokenBody)) (initial someClient))).
  split; [reflexivity|]. exists (Some tokenBody).
  split; [reflexivity|]. split; reflexivity.
Defined.

Lemma apiCall_keeps_envelope_unless_decoded_witness :
  fst (fst (apiCall latin1Lower noParseError (requestOf someClient OpGetDevices)
                    expiredEnvelope true (server (http.DoFailed "connection refused"))
                    (initial someClient)))
  = expiredEnvelope
  /\ snd (fst (apiCall latin1Lower noParseError (requestOf someClient OpGetDevices)
                       expiredEnvelope true
                       (server (http.DoFailed "connection refused"))
                       (initial someClient)))
     <> None.
Proof.
  apply (apiCall_keeps_envelope_unless_decoded latin1Lower noParseError
           (requestOf someClient OpGetDevices) expiredEnvelope true
           (server (http.DoFailed "connection refused")) (initial someClient)).
  intros body. simpl. discriminate.
Defined.

Lemma apiCall_status_error_witness :
  apiCall latin1Lower noParseError (requestOf someClient OpGetDevices) zeroResponse true
          (server (http.Response 503 (http.ReadAll (Some tokenBody))))
          (initial someClient)
  = ((zeroResponse, Some (Errorf "failed to do request: %v" [OInt 503])),
     with_log
       (with_wire (initial someClient)
          (issued latin1Lower someClient (requestOf someClient OpGetDevices) true
                  (server (http.Response 503 (http.ReadAll (Some tokenBody))))))
       [mkPrintf "Status %v received" [AInt 503]]).
Proof.
  apply (apiCall_status_error latin1Lower noParseError
           (requestOf someClient OpGetDevices) zeroResponse true
           (server (http.Response 503 (http.ReadAll (Some tokenBody))))
           (initial someClient) 503 (http.ReadAll (Some tokenBody)));
    [reflexivity|reflexivity|discriminate].
Defined.


Lemma GetToken_stores_documented_tokens_witness :
  client (snd (GetToken latin1Lower noParseError "123456"
                        (server (ok (tokenAnswer "r-1" "Success" "" "3600" "o-1"
                                                 "access-1" "refresh-1")))
                        (initial someClient)))
  = {| region := ServerRegionEurope; appID := "4e693d54d75db580a56d1263";
       keyID := "k.78784564654feda454557";
       appKey := "gU7Qtxi4dWnYAdmudyxni52bWZ58b8uN";
       account := "user@example.com"; accessToken := "access-1";
       refreshToken := "refresh-1"; debug := false |}.
Proof.
  apply (GetToken_stores_documented_tokens latin1Lower noParseError "123456"
           (server (ok (tokenAnswer "r-1" "Success" "" "3600" "o-1"
                                    "access-1" "refresh-1")))
           (initial someClient) "r-1" "Success" "" "3600" "o-1"
           "access-1" "refresh-1");
    reflexivity.
Defined.

Lemma GetDevices_sends_stored_token_witness :
  let w2 := snd (GetToken latin1Lower noParseError "123456"
                          (server (ok (tokenAnswer "r-1" "Success" "" "3600" "o-1"
                                                   "access-1" "refresh-1")))
                          (initial someClient)) in
  exists r : http.Request,
    wire (snd (GetDevices latin1Lower noParseError noDevices
                          (server (ok expiredBody)) w2)) = wire w2 ++ [r]
    /\ http.Header r !! "Accesstoken" = Some ["access-1"]
    /\ http.Header r !! "Sign"
       = Some [sign latin1Lower someClient "access-1"
                    (getNonce nonceLength (server (ok expiredBody)))
                    (getTimestamp (server (ok expiredBody)))].
Proof.
  apply (GetDevices_sends_stored_token latin1Lower noParseError noDevices "123456"
           (server (ok (tokenAnswer "r-1" "Success" "" "3600" "o-1"
                                    "access-1" "refresh-1")))
           (server (ok expiredBody)) (initial someClient)
           "r-1" "Success" "" "3600" "o-1" "access-1" "refresh-1");
    reflexivity.
Defined.

Lemma GetDevices_without_token_witness :
  exists r r' : http.Request,
    wire (snd (GetDevices latin1Lower noParseError noDevices (server (ok expiredBody))
                          (initial someClient))) = [] ++ [r]
    /\ wire (snd (GetAuthCode latin1Lower noParseError (server (ok expiredBody))
                              (initial someClient))) = [] ++ [r']
    /\ http.Header r !! "Accesstoken" = Some [""]
    /\ http.Header r' !! "Accesstoken" = None
    /\ http.Header r !! "Sign" = http.Header r' !! "Sign".
Proof.
  apply (GetDevices_without_token latin1Lower noParseError noDevices
           (server (ok expiredBody)) (initial someClient));
    reflexivity.
Defined.

Lemma GetDevices_goes_on_after_failure_witness :
  let w' := snd (GetDevices latin1Lower noParseError noDevices
                            (server (http.DoFailed "connection refused"))
                            (initial someClient)) in
  (exists e : error, In (mkPrintf "Failed query devices: %v" [AErr e]) (log w'))
  /\ last (log w') = Some (mkPrintf "Number of devices received: %v" [AInt 0])
  /\ stdout w' = [] ++ [].
Proof.
  apply (GetDevices_goes_on_after_failure latin1Lower noParseError noDevices
           (server (http.DoFailed "connection refused")) (initial someClient)).
  intros body. simpl. discriminate.
Defined.



Lemma apiCall_nonce_and_time_witness :
  Forall (fun r =>
            exists nonce timestamp : string,
              http.Header r !! "Nonce" = Some [nonce]
              /\ http.Header r !! "Time" = Some [timestamp]
              /\ len nonce = 16%nat
              /\ string_forallb isAlnum nonce = true
              /\ string_forallb isDigit timestamp = true
              /\ decimalValue timestamp = 1618914078668)
         (skipn 0 (wire (snd (apiCall latin1Lower noParseError
                                      (requestOf someClient OpGetDevices) zeroResponse
                                      true (server (ok expiredBody))
                                      (initial someClient))))).
Proof.
  apply (apiCall_nonce_and_time latin1Lower noParseError
           (requestOf someClient OpGetDevices) zeroResponse true
           (server (ok expiredBody)) (initial someClient)).
  simpl. lia.
Defined.

Lemma GetToken_tokens_by_code_witness :
  let a := client (snd (GetToken latin1Lower noParseError "123456"
                                 (server (ok halfTokenBody)) (initial someClient))) in
  (accessToken a, refreshToken a)
  = if Code (envelopeOf (ok halfTokenBody)) =? 0
    then tokensOf (Result (envelopeOf (ok halfTokenBody)))
    else ("", "").
Proof.
  apply (GetToken_tokens_by_code latin1Lower noParseError "123456"
           (server (ok halfTokenBody)) (initial someClient)).
  reflexivity.
Defined.

Lemma main_unknown_region_defaults_witness :
  exists (w : World) (rest : list Printf),
    goaqara.main latin1Lower noParseError noDevices
                 {| goaqara.appID := "app"; goaqara.keyID := "key";
                    goaqara.appKey := "secret"; goaqara.region := "Europe";
                    goaqara.account := "user@example.com"; goaqara.debug := true |}
                 "" (server (ok expiredBody)) (server (ok expiredBody))
                 (server (ok expiredBody))
    = goaqara.Return w
    /\ region (client w) = ServerRegionEurope
    /\ stdout w
       = goaqara.Println "No valid server region provided. Defaulting to 'europe'."
         :: rest.
Proof.
  apply (main_unknown_region_defaults latin1Lower noParseError noDevices
           {| goaqara.appID := "app"; goaqara.keyID := "key";
              goaqara.appKey := "secret"; goaqara.region := "Europe";
              goaqara.account := "user@example.com"; goaqara.debug := true |}
           "" (server (ok expiredBody)) (server (ok expiredBody))
           (server (ok expiredBody)));
    try discriminate.
  simpl. intros H. repeat destruct H as [H|H]; try discriminate H. exact H.
Defined.
